(** * SESD-Lab, Assignment6_2409/app.js: the Factory Method product demo

    A shallow embedding of [app.js]: the product classes, the creators,
    the [ProductFactory] registry and the handlers of the page, over a
    model of the JavaScript values and built-ins the file uses
    ([parseFloat], [||], template literals, [toFixed], [Map],
    [Date.now], [Math.random]). *)

From Stdlib Require Import ZArith String Ascii List Bool Lia.
From Stdlib Require Import DecimalString DecimalN DecimalPos.
From Stdlib Require Import SpecFloat.
From stdpp Require Import gmap strings.

Local Open Scope string_scope.
Local Open Scope Z_scope.

(** ** JavaScript numbers: IEEE 754 binary64, as [spec_float] *)

Module Num.

Definition prec : Z := 53.
Definition emax : Z := 1024.

Definition number : Type := spec_float.

Definition nan : number := S754_nan.
Definition zero : number := S754_zero false.
Definition infinity : number := S754_infinity false.
Definition neg : number -> number := SFopp.

(** The Number value of an integer (round to nearest, ties to even). *)
Definition of_Z (z : Z) : number := binary_normalize prec emax z 0 false.

(** The Number value of the decimal [m * 10^e], [RoundMVResult]. *)
Definition of_decimal (m : N) (e : Z) : number :=
  match m with
  | N0 => zero
  | Npos p =>
      match e with
      | Zneg q =>
          let '(mz, ez, lz) :=
            SFdiv_core_binary prec emax (Zpos p) 0 (Zpos (10 ^ q)) 0 in
          binary_round_aux prec emax false mz ez lz
      | _ => binary_round prec emax false (p * Z.to_pos (10 ^ e)) 0
      end
  end.

Definition mul : number -> number -> number := SFmul prec emax.

Definition is_nan (x : number) : bool :=
  match x with S754_nan => true | _ => false end.

Definition is_zero (x : number) : bool :=
  match x with S754_zero _ => true | _ => false end.

Definition is_finite (x : number) : bool :=
  match x with S754_zero _ | S754_finite _ _ _ => true | _ => false end.

(** [x < 0] as JavaScript compares it: false on NaN and on both zeros. *)
Definition is_negative (x : number) : bool :=
  match x with
  | S754_finite true _ _ | S754_infinity true => true
  | _ => false
  end.

Definition eqb (x y : number) : bool :=
  match x, y with
  | S754_zero a, S754_zero b => Bool.eqb a b
  | S754_infinity a, S754_infinity b => Bool.eqb a b
  | S754_nan, S754_nan => true
  | S754_finite a m e, S754_finite b m' e' =>
      Bool.eqb a b && Pos.eqb m m' && Z.eqb e e'
  | _, _ => false
  end.

(** [Math.floor]. *)
Definition floor (x : number) : number :=
  match x with
  | S754_finite s m e =>
      match e with
      | Zneg k =>
          let q := Z.shiftr (if s then Z.neg m else Z.pos m) (Z.pos k) in
          binary_normalize prec emax q 0 s
      | _ => x
      end
  | _ => x
  end.

(** *** Decimal digits *)

Definition digits (n : N) : string := NilZero.string_of_uint (N.to_uint n).

Fixpoint zeros (n : nat) : string :=
  match n with O => "" | S k => String "0" (zeros k) end.

Fixpoint take (n : nat) (s : string) : string :=
  match n, s with
  | S k, String c r => String c (take k r)
  | _, _ => ""
  end.

Fixpoint drop (n : nat) (s : string) : string :=
  match n, s with
  | S k, String _ r => drop k r
  | _, _ => s
  end.

(** *** Number::toString (radix 10)

    ECMAScript takes integers [n], [k], [s] with [k >= 1], [s] of [k]
    decimal digits, [s * 10^(n-k)] of Number value [x], and [k] as small
    as possible; among several [s], the one whose value is closest to
    [x], the even one on a tie.  A positive finite [m * 2^e] is the
    decimal [D * 10^E] exactly, so [k] is at most the number of digits
    of [D]. *)

Definition exact_decimal (m : positive) (e : Z) : N * Z :=
  match e with
  | Zneg q => (Npos (m * 5 ^ q), e)
  | _ => ((Npos m * 2 ^ Z.to_N e)%N, 0)
  end.

Definition ndigits (n : N) : nat := String.length (digits n).

(** The power of ten that multiplies a digit string [s] placed with its
    decimal point after [n] digits. *)
Definition scale (s : N) (n : Z) : Z := n - Z.of_nat (ndigits s).

(** [|s * 10^p - D * 10^E|], scaled by a common power of ten. *)
Definition distance (s : N) (p : Z) (D : N) (E : Z) : Z :=
  let c := Z.min p E in
  Z.abs (Z.of_N s * 10 ^ (p - c) - Z.of_N D * 10 ^ (E - c)).

(** The candidates with [k] digits around [D * 10^E], each [(s, n)]:
    the digits of [D] cut after [k], and that plus one (carried into the
    next power of ten when it reaches [10^k]). *)
Definition candidates (D : N) (E : Z) (L k : nat) : list (N * Z) :=
  let n := Z.of_nat L + E in
  let lo := (D / 10 ^ N.of_nat (L - k))%N in
  let hi := (lo + 1)%N in
  (lo, n) ::
  (if (hi =? 10 ^ N.of_nat k)%N then ((10 ^ N.of_nat (k - 1))%N, n + 1)
   else (hi, n)) :: nil.

(** Does [s * 10^(n-k)] have the Number value [x]? *)
Definition denotes (x : number) (c : N * Z) : bool :=
  eqb (of_decimal (fst c) (scale (fst c) (snd c))) x.

Definition nearer (D : N) (E : Z) (best : option (N * Z)) (c : N * Z)
  : option (N * Z) :=
  match best with
  | None => Some c
  | Some b =>
      let db := distance (fst b) (scale (fst b) (snd b)) D E in
      let dc := distance (fst c) (scale (fst c) (snd c)) D E in
      if dc <? db then Some c
      else if (dc =? db) && N.even (fst c) then Some c
      else best
  end.

Definition closest (D : N) (E : Z) (cs : list (N * Z)) : option (N * Z) :=
  fold_left (nearer D E) cs None.

(** The search for the least [k], from [k] up to the digits of [D]. *)
Fixpoint shortest (x : number) (D : N) (E : Z) (L : nat) (k fuel : nat)
  : N * Z :=
  match fuel with
  | O => (D, Z.of_nat L + E)
  | S fuel' =>
      match closest D E (List.filter (denotes x) (candidates D E L k)) with
      | Some c => c
      | None => shortest x D E L (S k) fuel'
      end
  end.

Definition format_decimal (s : N) (n : Z) : string :=
  let ds := digits s in
  let k := String.length ds in
  if (Z.of_nat k <=? n) && (n <=? 21) then
    ds ++ zeros (Z.to_nat (n - Z.of_nat k))
  else if (0 <? n) && (n <=? 21) then
    take (Z.to_nat n) ds ++ "." ++ drop (Z.to_nat n) ds
  else if (-6 <? n) && (n <=? 0) then
    "0." ++ zeros (Z.to_nat (- n)) ++ ds
  else
    let e := n - 1 in
    let c := if e <? 0 then "-" else "+" in
    let ex := digits (Z.abs_N e) in
    match k with
    | 1%nat => ds ++ "e" ++ c ++ ex
    | _ => take 1 ds ++ "." ++ drop 1 ds ++ "e" ++ c ++ ex
    end.

Definition to_string_pos (m : positive) (e : Z) : string :=
  let '(D, E) := exact_decimal m e in
  let L := ndigits D in
  let '(s, n) := shortest (S754_finite false m e) D E L 1 L in
  format_decimal s n.

Definition to_string (x : number) : string :=
  match x with
  | S754_nan => "NaN"
  | S754_zero _ => "0"
  | S754_infinity s => if s then "-Infinity" else "Infinity"
  | S754_finite s m e =>
      (if s then "-" else "") ++ to_string_pos m e
  end.

(** *** Number.prototype.toFixed *)

Definition to_fixed (f : nat) (x : number) : string :=
  match x with
  | S754_nan | S754_infinity _ => to_string x
  | S754_zero _ | S754_finite _ _ _ =>
      let sg := if is_negative x then "-" else "" in
      let '(m, e) :=
        match x with S754_finite _ m e => (Z.pos m, e) | _ => (0, 0) end in
      (* x >= 10^21 *)
      if (0 <=? e) && (10 ^ 21 <=? m * 2 ^ e) then
        sg ++ to_string (SFabs x)
      else
        (* the integer n with n / 10^f - x closest to zero, the larger
           one on a tie *)
        let p := 10 ^ Z.of_nat f in
        let n :=
          if 0 <=? e then m * 2 ^ e * p
          else (2 * m * p + 2 ^ (- e)) / 2 ^ (- e + 1) in
        let ms := digits (Z.to_N n) in
        let ms :=
          match f with
          | O => ms
          | _ =>
              let k := String.length ms in
              let ms := if (k <=? f)%nat then zeros (f + 1 - k) ++ ms else ms in
              let k := String.length ms in
              take (k - f) ms ++ "." ++ drop (k - f) ms
          end in
        sg ++ ms
  end.

End Num.

(** ** JavaScript strings, as UTF-8 byte strings *)

Module Str.

Definition byte (n : nat) : ascii := ascii_of_nat n.

Definition code (c : ascii) : nat := nat_of_ascii c.

(** The double quote, written by its code. *)
Definition dq : string := String (byte 34) "".

Definition is_digit (c : ascii) : bool :=
  (48 <=? code c)%nat && (code c <=? 57)%nat.

Definition digit_value (c : ascii) : N := N.of_nat (code c - 48).

(** WhiteSpace and LineTerminator code points of one byte: TAB, LF, VT,
    FF, CR, SP. *)
Definition ws1 (c : ascii) : bool :=
  let n := code c in
  ((9 <=? n)%nat && (n <=? 13)%nat) || (n =? 32)%nat.

(** U+00A0. *)
Definition ws2 (a b : ascii) : bool :=
  (code a =? 194)%nat && (code b =? 160)%nat.

(** U+1680, U+2000..U+200A, U+2028, U+2029, U+202F, U+205F, U+3000,
    U+FEFF. *)
Definition ws3 (a b c : ascii) : bool :=
  let '(x, y, z) := (code a, code b, code c) in
  ((x =? 225) && (y =? 154) && (z =? 128))%nat
  || ((x =? 226) && (y =? 128)
      && (((128 <=? z) && (z <=? 138)) || (z =? 168) || (z =? 169)
          || (z =? 175)))%nat
  || ((x =? 226) && (y =? 129) && (z =? 159))%nat
  || ((x =? 227) && (y =? 128) && (z =? 128))%nat
  || ((x =? 239) && (y =? 187) && (z =? 191))%nat.

(** TrimString(s, start). *)
Fixpoint trim_start (s : string) : string :=
  match s with
  | String a r =>
      if ws1 a then trim_start r
      else
        match r with
        | String b r' =>
            if ws2 a b then trim_start r'
            else
              match r' with
              | String c r'' => if ws3 a b c then trim_start r'' else s
              | EmptyString => s
              end
        | EmptyString => s
        end
  | EmptyString => s
  end.

Fixpoint trim_end (s : string) : string :=
  match s with
  | String a r =>
      match trim_start s with
      | EmptyString => ""
      | _ => String a (trim_end r)
      end
  | EmptyString => ""
  end.

(** String.prototype.trim. *)
Definition trim (s : string) : string := trim_end (trim_start s).

(** The longest prefix of decimal digits, and what follows it. *)
Fixpoint span_digits (s : string) : string * string :=
  match s with
  | String c r =>
      if is_digit c then
        let '(d, t) := span_digits r in (String c d, t)
      else ("", s)
  | EmptyString => ("", "")
  end.

(** The mathematical value of a string of decimal digits. *)
Fixpoint digits_value_from (acc : N) (s : string) : N :=
  match s with
  | String c r => digits_value_from (10 * acc + digit_value c)%N r
  | EmptyString => acc
  end.

Definition digits_value : string -> N := digits_value_from 0.

Definition starts_with (p s : string) : bool := String.prefix p s.

(** The sign of a StrDecimalLiteral: is it negative, and the rest. *)
Definition split_sign (s : string) : bool * string :=
  match s with
  | String "-" r => (true, r)
  | String "+" r => (false, r)
  | _ => (false, s)
  end.

(** ExponentPart, when one follows: [e] or [E], an optional sign and
    at least one digit; 0 when none does. *)
Definition exponent_part (s : string) : Z :=
  match s with
  | String c r =>
      if (code c =? 101)%nat || (code c =? 69)%nat then
        let '(sg, r') := split_sign r in
        let '(d, _) := span_digits r' in
        match d with
        | EmptyString => 0
        | _ => let v := Z.of_N (digits_value d) in if sg then - v else v
        end
      else 0
  | EmptyString => 0
  end.

(** The value of the longest prefix of [s] that is a
    StrUnsignedDecimalLiteral, if there is one. *)
Definition unsigned_literal (s : string) : option Num.number :=
  if starts_with "Infinity" s then Some Num.infinity
  else
    let '(int, r) := span_digits s in
    let '(frac, r) :=
      match r with
      | String "." r' => span_digits r'
      | _ => ("", r)
      end in
    match int, frac with
    | EmptyString, EmptyString => None
    | _, _ =>
        let e := exponent_part r in
        Some (Num.of_decimal (digits_value (int ++ frac))
                (e - Z.of_nat (String.length frac)))
    end.

(** [parseFloat] on a string. *)
Definition parse_float (s : string) : Num.number :=
  let '(sg, r) := split_sign (trim_start s) in
  match unsigned_literal r with
  | Some x => if sg then Num.neg x else x
  | None => Num.nan
  end.

(** [parseInt(s, 10)] on a string. *)
Definition parse_int10 (s : string) : Num.number :=
  let '(sg, r) := split_sign (trim_start s) in
  let '(d, _) := span_digits r in
  match d with
  | EmptyString => Num.nan
  | _ =>
      let x := Num.of_decimal (digits_value d) 0 in
      if sg then Num.neg x else x
  end.

End Str.

(** ** JavaScript values

    The primitive values a field of a raw record holds: what a form or
    a JSON document gives.  Objects, symbols and big integers as field
    values are left out. *)

Inductive value :=
| Undefined
| Null
| Bool (b : bool)
| Number (x : Num.number)
| Str (s : string).

(** ToBoolean. *)
Definition truthy (v : value) : bool :=
  match v with
  | Undefined | Null => false
  | Bool b => b
  | Number x => negb (Num.is_zero x || Num.is_nan x)
  | Str s => negb (String.eqb s "")
  end.

(** [a || b]. *)
Definition or (a b : value) : value := if truthy a then a else b.

(** [a || b] between two numbers. *)
Definition or_number (x y : Num.number) : Num.number :=
  if truthy (Number x) then x else y.

(** ToString, as a template literal and [+] with a string apply it. *)
Definition to_string (v : value) : string :=
  match v with
  | Undefined => "undefined"
  | Null => "null"
  | Bool b => if b then "true" else "false"
  | Number x => Num.to_string x
  | Str s => s
  end.

(** The global [parseFloat]: ToString, then the literal prefix. *)
Definition parseFloat (v : value) : Num.number :=
  Str.parse_float (to_string v).

(** [parseInt(v, 10)]. *)
Definition parseInt10 (v : value) : Num.number :=
  Str.parse_int10 (to_string v).

(** A raw field record: an object read by property name; a property
    that is absent reads as [undefined]. *)
Definition get (d : gmap string value) (k : string) : value :=
  default Undefined (d !! k).

(** [Object.assign({}, a, b)]: the properties of [b] override. *)
Definition assign (a b : gmap string value) : gmap string value := b ∪ a.

(** ** Outcomes and the state-and-exception monad *)

(** [new Error(message)], which the script throws, and the [TypeError]
    the engine throws; [err.message] reads the message of either. *)
Inductive error :=
| Error (message : string)
| TypeError (message : string).

Definition message (e : error) : string :=
  match e with Error m | TypeError m => m end.

Inductive outcome (A : Type) :=
| Returned (a : A)
| Thrown (e : error).
Arguments Returned {A} a.
Arguments Thrown {A} e.

Definition M (S A : Type) : Type := S -> outcome A * S.

Definition ret {S A} (a : A) : M S A := fun s => (Returned a, s).

Definition throw {S A} (e : error) : M S A := fun s => (Thrown e, s).

Definition bind {S A B} (m : M S A) (f : A -> M S B) : M S B :=
  fun s =>
    match m s with
    | (Returned a, s') => f a s'
    | (Thrown e, s') => (Thrown e, s')
    end.

Notation "x <- m ;; k" := (bind m (fun x => k))
  (at level 100, m at next level, right associativity).

(** ** The clock, the random source and the browser *)

(** [Date.now()] and [Math.random()] are read from the environment: the
    [i]-th call of each returns what the environment holds for it.

    The environment also answers what [addProductToUI] asks of the
    browser.  [query_selector markup selector] tells whether
    [querySelector(selector)] finds an element in an element whose
    [innerHTML] has been set to [markup]: the HTML parser of the browser
    decides it, and a text that opens a comment or a [textarea] can
    swallow what follows it.  [null_message selector] is the message of
    the [TypeError] the engine throws for a method call on the [null]
    that [querySelector(selector)] returned. *)
Record world := World {
  date_now : nat -> Z;
  math_random : nat -> Num.number;
  now_calls : nat;
  random_calls : nat;
  query_selector : string -> string -> bool;
  null_message : string -> string
}.

Definition Date_now : M world Z :=
  fun w =>
    (Returned (date_now w (now_calls w)),
     World (date_now w) (math_random w) (S (now_calls w)) (random_calls w)
           (query_selector w) (null_message w)).

Definition Math_random : M world Num.number :=
  fun w =>
    (Returned (math_random w (random_calls w)),
     World (date_now w) (math_random w) (now_calls w) (S (random_calls w))
           (query_selector w) (null_message w)).

(** ** Product classes *)

(** The fields the [Product] constructor sets. *)
Record base := Base {
  name : value;
  price : Num.number;
  id : string
}.

Inductive product :=
| Product (b : base)
| ElectronicsProduct (b : base) (brand warrantyYears : value)
| ClothingProduct (b : base) (size material : value)
| BookProduct (b : base) (author pages : value).

Definition base_of (p : product) : base :=
  match p with
  | Product b | ElectronicsProduct b _ _ | ClothingProduct b _ _
  | BookProduct b _ _ => b
  end.

(** [Product.constructor({ name, price })]. *)
Definition Product_constructor (d : gmap string value) : M world base :=
  let name := get d "name" in
  let price := or_number (parseFloat (get d "price")) Num.zero in
  now <- Date_now ;;
  r <- Math_random ;;
  ret (Base name price
         ("p_" ++ Num.to_string (Num.of_Z now) ++ "_"
          ++ Num.to_string (Num.floor (Num.mul r (Num.of_Z 1000))))).

Definition new_Product (d : gmap string value) : M world product :=
  b <- Product_constructor d ;; ret (Product b).

Definition new_ElectronicsProduct (d : gmap string value) : M world product :=
  b <- Product_constructor d ;;
  ret (ElectronicsProduct b
         (or (get d "brand") (Str "Unknown"))
         (or (get d "warrantyYears") (Number (Num.of_Z 1)))).

Definition new_ClothingProduct (d : gmap string value) : M world product :=
  b <- Product_constructor d ;;
  ret (ClothingProduct b
         (or (get d "size") (Str "M"))
         (or (get d "material") (Str "Unknown"))).

Definition new_BookProduct (d : gmap string value) : M world product :=
  b <- Product_constructor d ;;
  ret (BookProduct b
         (or (get d "author") (Str "Unknown"))
         (or (get d "pages") (Number (Num.of_Z 0)))).

(** [this.price.toFixed(2)] after the rupee sign. *)
Definition rupees (b : base) : string := "₹" ++ Num.to_fixed 2 (price b).

Definition describe (p : product) : string :=
  match p with
  | Product b => to_string (name b) ++ " — " ++ rupees b
  | ElectronicsProduct b brand warrantyYears =>
      to_string (name b) ++ " (" ++ to_string brand ++ ") — " ++ rupees b
      ++ " — " ++ to_string warrantyYears ++ "yr warranty"
  | ClothingProduct b size material =>
      to_string (name b) ++ " — Size: " ++ to_string size ++ " — "
      ++ to_string material ++ " — " ++ rupees b
  | BookProduct b author pages =>
      Str.dq ++ to_string (name b) ++ Str.dq ++ " by " ++ to_string author
      ++ " — " ++ to_string pages ++ " pages — " ++ rupees b
  end.

Definition meta (p : product) : gmap string value :=
  match p with
  | Product _ => ∅
  | ElectronicsProduct _ brand warrantyYears =>
      {[ "brand" := brand; "warrantyYears" := warrantyYears ]}
  | ClothingProduct _ size material =>
      {[ "size" := size; "material" := material ]}
  | BookProduct _ author pages =>
      {[ "author" := author; "pages" := pages ]}
  end.

(** ** Creators (Factory Method) *)

(** An instance of [ProductCreator], of one of the three concrete
    creators, or of a further subclass that overrides [factoryMethod]
    with a method that builds a product or throws.  Like the
    constructors of the script, the method of such a subclass works on
    the record and the environment; a creator written to reach for the
    registry or the document is not among these. *)
Inductive creator :=
| ProductCreator
| ElectronicsCreator
| ClothingCreator
| BookCreator
| Subclass (factoryMethod : gmap string value -> M world product).

Definition must_override : error :=
  Error "factoryMethod() must be implemented by subclasses".

Definition factoryMethod (c : creator) (data : gmap string value)
  : M world product :=
  match c with
  | ProductCreator => throw must_override
  | ElectronicsCreator => new_ElectronicsProduct data
  | ClothingCreator => new_ClothingProduct data
  | BookCreator => new_BookProduct data
  | Subclass f => f data
  end.

(** [ProductCreator.prototype.create], inherited by every creator. *)
Definition creator_create (c : creator) (data : gmap string value)
  : M world product :=
  factoryMethod c data.

(** ** [Map]: keys in insertion order, one entry per key *)

Module JsMap.
Section JsMap.
Context {V : Type}.

Definition t : Type := list (string * V).

Definition empty : t := nil.

Fixpoint get (k : string) (m : t) : option V :=
  match m with
  | (k', v) :: r => if String.eqb k k' then Some v else get k r
  | nil => None
  end.

Definition has (k : string) (m : t) : bool :=
  match get k m with Some _ => true | None => false end.

Fixpoint replace (k : string) (v : V) (m : t) : t :=
  match m with
  | (k', v') :: r =>
      if String.eqb k k' then (k', v) :: r else (k', v') :: replace k v r
  | nil => nil
  end.

(** [set]: an existing key keeps its place, a new one goes last. *)
Definition set (k : string) (v : V) (m : t) : t :=
  if has k m then replace k v m else (m ++ (k, v) :: nil)%list.

Definition delete (k : string) (m : t) : t :=
  List.filter (fun e => negb (String.eqb k (fst e))) m.

Definition keys (m : t) : list string := map fst m.

End JsMap.
Arguments t V : clear implicits.
End JsMap.

(** ** The page: the registry, the created products and the document *)

(** A list item of [#productList]. *)
Record li := Li {
  li_node : nat;
  dataset_id : string;
  innerHTML : string
}.

(** The form: the three fixed controls, and the controls
    [renderTypeFields] last put inside [#typeFields], by [id], with
    their values. *)
Record form := Form {
  productType : string;
  nameInput : string;
  priceInput : string;
  typeFields : gmap string string
}.

Record page := Page {
  registry : JsMap.t creator;
  created : list product;
  productList : list li;
  nodes : nat;
  inputs : form;
  alerts : list string;
  env : world
}.

Definition with_registry (r : JsMap.t creator) (s : page) : page :=
  Page r (created s) (productList s) (nodes s) (inputs s) (alerts s) (env s).

Definition with_created (c : list product) (s : page) : page :=
  Page (registry s) c (productList s) (nodes s) (inputs s) (alerts s) (env s).

Definition with_productList (l : list li) (n : nat) (s : page) : page :=
  Page (registry s) (created s) l n (inputs s) (alerts s) (env s).

Definition with_inputs (f : form) (s : page) : page :=
  Page (registry s) (created s) (productList s) (nodes s) f (alerts s) (env s).

Definition with_alerts (a : list string) (s : page) : page :=
  Page (registry s) (created s) (productList s) (nodes s) (inputs s) a (env s).

Definition with_env (w : world) (s : page) : page :=
  Page (registry s) (created s) (productList s) (nodes s) (inputs s)
       (alerts s) w.

(** Run a computation on the clock and the random source in the page. *)
Definition lift {A} (m : M world A) : M page A :=
  fun s => let '(o, w) := m (env s) in (o, with_env w s).

Definition read {A} (f : page -> A) : M page A := fun s => (Returned (f s), s).

Definition update (f : page -> page) : M page unit :=
  fun s => (Returned tt, f s).

(** ** [ProductFactory] *)

Module ProductFactory.

(** The registry as the initialiser leaves it. *)
Definition initial : JsMap.t creator :=
  JsMap.set "book" BookCreator
    (JsMap.set "clothing" ClothingCreator
       (JsMap.set "electronics" ElectronicsCreator JsMap.empty)).

Definition unregistered (type : string) : error :=
  Error ("No creator registered for type " ++ Str.dq ++ type ++ Str.dq).

Definition create (type : string) (data : gmap string value)
  : M page product :=
  creator <- read (fun s => JsMap.get type (registry s)) ;;
  match creator with
  | None => throw (unregistered type)
  | Some c => lift (creator_create c data)
  end.

Definition register (type : string) (creatorInstance : creator)
  : M page unit :=
  update (fun s => with_registry (JsMap.set type creatorInstance (registry s)) s).

Definition unregister (type : string) : M page unit :=
  update (fun s => with_registry (JsMap.delete type (registry s)) s).

Definition availableTypes : M page (list string) :=
  read (fun s => JsMap.keys (registry s)).

End ProductFactory.

(** ** UI wiring *)

Module UI.

Definition renderTypeFields (type : string) : M page unit :=
  update (fun s =>
    let f := inputs s in
    let fields : gmap string string :=
      if String.eqb type "electronics" then
        {[ "brand" := ""; "warranty" := "" ]}
      else if String.eqb type "clothing" then
        {[ "size" := "S"; "material" := "" ]}
      else if String.eqb type "book" then
        {[ "author" := ""; "pages" := "" ]}
      else ∅ in
    with_inputs (Form (productType f) (nameInput f) (priceInput f) fields) s).

(** [(document.getElementById(id) || {}).value]. *)
Definition field_value (s : page) (id : string) : value :=
  match typeFields (inputs s) !! id with
  | Some v => Str v
  | None => Undefined
  end.

(** The markup [addProductToUI] assigns to [li.innerHTML]: the text of
    [describe()] goes into it as it is. *)
Definition item_markup (prod : product) : string :=
  "<div>" ++ describe prod ++ "</div><div><button class="
  ++ Str.dq ++ "clone" ++ Str.dq ++ ">Clone</button> <button class="
  ++ Str.dq ++ "remove" ++ Str.dq ++ ">Remove</button></div>".

(** [addProductToUI] builds the item and appends it, and then looks up
    the remove button and the clone button inside it to hang a listener
    on each.  A lookup that finds nothing returns [null], and the call
    of [addEventListener] on it throws a [TypeError]: the item is in the
    list by then.  The two listeners are [remove_click] and
    [clone_click] below, closed over the product and the item. *)
Definition addProductToUI (prod : product) : M page nat :=
  fun s =>
    let node := nodes s in
    let item := Li node (id (base_of prod)) (item_markup prod) in
    let s' :=
      with_productList (productList s ++ item :: nil)%list (S node) s in
    if query_selector (env s) (item_markup prod) ".remove" then
      if query_selector (env s) (item_markup prod) ".clone" then
        (Returned node, s')
      else (Thrown (TypeError (null_message (env s) ".clone")), s')
    else (Thrown (TypeError (null_message (env s) ".remove")), s').

(** [created.findIndex(p => p.id === prod.id)] and [splice(idx, 1)]:
    the first product with that id goes. *)
Fixpoint remove_first (i : string) (l : list product) : option (list product) :=
  match l with
  | p :: r =>
      if String.eqb (id (base_of p)) i then Some r
      else option_map (cons p) (remove_first i r)
  | nil => None
  end.

Definition remove_click (prod : product) (node : nat) : M page unit :=
  update (fun s =>
    match remove_first (id (base_of prod)) (created s) with
    | Some c =>
        with_productList
          (List.filter (fun l => negb (Nat.eqb (li_node l) node)) (productList s))
          (nodes s)
          (with_created c s)
    | None => s
    end).

(** The tag the clone listener derives with [instanceof]. *)
Definition type_of (prod : product) : option string :=
  match prod with
  | ElectronicsProduct _ _ _ => Some "electronics"
  | ClothingProduct _ _ _ => Some "clothing"
  | BookProduct _ _ _ => Some "book"
  | Product _ => None
  end.

Definition cloneData (prod : product) : gmap string value :=
  assign (meta prod)
    {[ "name" := Str (to_string (name (base_of prod)) ++ " (clone)");
       "price" := Number (price (base_of prod)) ]}.

(** The clone listener; it returns the new product when it makes one
    and [addProductToUI] returns.  Nothing catches what it throws. *)
Definition clone_click (prod : product) : M page (option product) :=
  match type_of prod with
  | None => ret None
  | Some type =>
      newProd <- ProductFactory.create type (cloneData prod) ;;
      _ <- update (fun s => with_created (created s ++ newProd :: nil)%list s) ;;
      _ <- addProductToUI newProd ;;
      ret (Some newProd)
  end.

(** [try { ... } catch (err) { alert(err.message) }]. *)
Definition try_alert (m : M page unit) : M page unit :=
  fun s =>
    match m s with
    | (Returned u, s') => (Returned u, s')
    | (Thrown e, s') => (Returned tt, with_alerts (alerts s' ++ message e :: nil)%list s')
    end.

Definition create_click : M page unit :=
  f <- read inputs ;;
  s0 <- read (fun s => s) ;;
  let type := productType f in
  let name := or (Str (Str.trim (nameInput f))) (Str "Untitled") in
  let price := or_number (parseFloat (Str (priceInput f))) Num.zero in
  let base : gmap string value :=
    {[ "name" := name; "price" := Number price ]} in
  let data : gmap string value :=
    if String.eqb type "electronics" then
      <[ "brand" := or (field_value s0 "brand") (Str "Generic") ]>
        (<[ "warrantyYears" :=
              Number (parseInt10 (or (field_value s0 "warranty")
                                     (Number (Num.of_Z 1)))) ]> base)
    else if String.eqb type "clothing" then
      <[ "size" := or (field_value s0 "size") (Str "M") ]>
        (<[ "material" := or (field_value s0 "material") (Str "Unknown") ]>
           base)
    else if String.eqb type "book" then
      <[ "author" := or (field_value s0 "author") (Str "Unknown") ]>
        (<[ "pages" :=
              Number (parseInt10 (or (field_value s0 "pages")
                                     (Number (Num.of_Z 0)))) ]> base)
    else base in
  try_alert (
    product <- ProductFactory.create type data ;;
    _ <- update (fun s => with_created (created s ++ product :: nil)%list s) ;;
    _ <- addProductToUI product ;;
    update (fun s =>
      let f := inputs s in
      with_inputs (Form (productType f) "" "" (typeFields f)) s)).

Definition clear_click : M page unit :=
  update (fun s => with_productList nil (nodes s) (with_created nil s)).

(** The [change] listener of [#productType]. *)
Definition productType_change (v : string) : M page unit :=
  _ <- update (fun s =>
         let f := inputs s in
         with_inputs (Form v (nameInput f) (priceInput f) (typeFields f)) s) ;;
  renderTypeFields v.

End UI.

(** The page once the script has run, in a given environment and with
    the controls as the document has them. *)
Definition startup (w : world) (f : form) : page :=
  snd (UI.renderTypeFields (productType f)
         (Page ProductFactory.initial nil nil 0 f nil w)).

(** ** Sample inputs *)

Module Sample.

(** The message of one engine for a method call on [null]. *)
Definition null_call (selector : string) : string :=
  "Cannot read properties of null (reading 'addEventListener')".

(** Whether [p] occurs in [s]. *)
Fixpoint contains (p s : string) : bool :=
  Str.starts_with p s
  || match s with
     | String _ r => contains p r
     | EmptyString => false
     end.

(** A stand-in for the parser of a browser.  It is right about an item
    whose text holds no [<], in which the two buttons are found, and
    about one whose text opens a comment and does not close it, which
    swallows the buttons; the samples below stay within these. *)
Definition comments (markup selector : string) : bool :=
  negb (contains "<!--" markup).

(** A clock that stands still and a random source that draws 0.5004 and
    then 0.5009: two draws of the same thousandth. *)
Definition still : world :=
  World (fun _ => 1700000000000)
        (fun i => match i with
                  | O => Num.of_decimal 5004 (-4)
                  | _ => Num.of_decimal 5009 (-4)
                  end)
        0 0 comments null_call.

Definition blank : form := Form "electronics" "" "" ∅.

Definition page0 : page := startup still blank.

Definition dune : gmap string value :=
  {[ "name" := Str "Dune"; "price" := Str "12.5";
     "author" := Str "Herbert"; "pages" := Number (Num.of_Z 412) ]}.

(** The form filled for the book of [dune]. *)
Definition dune_form : form :=
  Form "book" "Dune" "12.5" {[ "author" := "Herbert"; "pages" := "412" ]}.

Definition fan : gmap string value :=
  {[ "name" := Str "Fan"; "price" := Str "bad"; "brand" := Str "Acme" ]}.

End Sample.

(** * Predicates of the statements *)

(** A binary64 number: a finite one has a mantissa and an exponent of
    the format. *)
Definition valid (x : Num.number) : bool := valid_binary Num.prec Num.emax x.

(** The exponent binary64 gives to a number of magnitude [2^e]. *)
Definition fexp64 (e : Z) : Z := Z.max (e - 53) (-1074).

(** Decimal digits only. *)
Fixpoint all_digits (s : string) : bool :=
  match s with
  | String c r => Str.is_digit c && all_digits r
  | EmptyString => true
  end.

(** The string is empty or starts with a character that is no digit. *)
Definition no_digit_ahead (s : string) : Prop :=
  match s with
  | String c _ => Str.is_digit c = false
  | EmptyString => True
  end.

(** No [.] ahead: what follows the integer part is not a fraction. *)
Definition no_dot_ahead (s : string) : Prop :=
  match s with
  | String c _ => c <> "."%char
  | EmptyString => True
  end.

(** No underscore in the string. *)
Fixpoint plain (s : string) : bool :=
  match s with
  | String c r => negb (Ascii.eqb c "_") && plain r
  | EmptyString => true
  end.

(** The four constructors of the class hierarchy. *)
Definition constructors : list (gmap string value -> M world product) :=
  new_Product :: new_ElectronicsProduct :: new_ClothingProduct
  :: new_BookProduct :: nil.

(** The three creators the script defines. *)
Definition built_in (c : creator) : Prop :=
  c = ElectronicsCreator \/ c = ClothingCreator \/ c = BookCreator.

(** A price that is a finite number and not below zero. *)
Definition finite_nonnegative (x : Num.number) : bool :=
  Num.is_finite x && negb (Num.is_negative x).

(** What holds of the price of a product built from the record [d]. *)
Definition price_coerced (d : gmap string value) (p : product) : Prop :=
  let given := parseFloat (get d "price") in
  let x := price (base_of p) in
  Num.is_nan x = false
  /\ x <> S754_zero true
  /\ (Num.is_nan given = false -> Num.is_zero given = false -> x = given)
  /\ (finite_nonnegative given = true -> finite_nonnegative x = true)
  /\ (d !! "price" = None -> x = Num.zero)
  /\ (Num.is_nan given = true -> x = Num.zero)
  /\ (Num.is_zero given = true -> x = Num.zero).

(** A creator that overrides [factoryMethod]: one of the three of the
    script, or a subclass whose own [factoryMethod] does not end in the
    must-override error (by calling the base step, say). *)
Definition concrete (c : creator) : Prop :=
  match c with
  | ProductCreator => False
  | ElectronicsCreator | ClothingCreator | BookCreator => True
  | Subclass f => forall d w, fst (f d w) <> Thrown must_override
  end.

(** The sizes the form offers. *)
Definition sizes : list value := Str "S" :: Str "M" :: Str "L" :: Str "XL" :: nil.

(** A product one of the three creators of the script has built. *)
Definition constructed (p : product) : Prop :=
  exists c d w w', built_in c /\ creator_create c d w = (Returned p, w').

(** The clock and the random source after one reading of each. *)
Definition read_once (w : world) : world :=
  World (date_now w) (math_random w) (S (now_calls w)) (S (random_calls w))
        (query_selector w) (null_message w).

(** The identifier of a product. *)
Definition pid (p : product) : string := id (base_of p).

(** The name and the price the create listener reads from the form. *)
Definition form_name (f : form) : value :=
  or (Str (Str.trim (nameInput f))) (Str "Untitled").

Definition form_price (f : form) : Num.number :=
  or_number (parseFloat (Str (priceInput f))) Num.zero.

(** The record the create listener builds from the form. *)
Definition form_data (s : page) : gmap string value :=
  let f := inputs s in
  let type := productType f in
  let base : gmap string value :=
    {[ "name" := form_name f; "price" := Number (form_price f) ]} in
  if String.eqb type "electronics" then
    <[ "brand" := or (UI.field_value s "brand") (Str "Generic") ]>
      (<[ "warrantyYears" :=
            Number (parseInt10 (or (UI.field_value s "warranty")
                                   (Number (Num.of_Z 1)))) ]> base)
  else if String.eqb type "clothing" then
    <[ "size" := or (UI.field_value s "size") (Str "M") ]>
      (<[ "material" := or (UI.field_value s "material") (Str "Unknown") ]>
         base)
  else if String.eqb type "book" then
    <[ "author" := or (UI.field_value s "author") (Str "Unknown") ]>
      (<[ "pages" :=
            Number (parseInt10 (or (UI.field_value s "pages")
                                   (Number (Num.of_Z 0)))) ]> base)
  else base.

(** The page after the create listener has made [p] in the environment
    [w]: the product and its item are appended, the name and the price
    of the form are emptied. *)
Definition after_create (p : product) (h : string) (w : world) (s : page)
  : page :=
  Page (registry s) (created s ++ p :: nil)%list
       (productList s ++ Li (nodes s) (pid p) h :: nil)%list
       (S (nodes s))
       (Form (productType (inputs s)) "" "" (typeFields (inputs s)))
       (alerts s) w.

(** The page after a listener has appended [p] and its item. *)
Definition after_clone (p : product) (h : string) (w : world) (s : page)
  : page :=
  Page (registry s) (created s ++ p :: nil)%list
       (productList s ++ Li (nodes s) (pid p) h :: nil)%list
       (S (nodes s)) (inputs s) (alerts s) w.

(** Whether the browser finds the two buttons in the item of [p]. *)
Definition buttons_found (w : world) (p : product) : bool :=
  query_selector w (UI.item_markup p) ".remove"
  && query_selector w (UI.item_markup p) ".clone".

(** The [TypeError] [addProductToUI] throws for the item of [p] when a
    button is not found: that of the first lookup that finds nothing,
    the remove button coming first. *)
Definition null_button (w : world) (p : product) : error :=
  TypeError
    (null_message w
       (if query_selector w (UI.item_markup p) ".remove" then ".clone"
        else ".remove")).

(** The page the create listener leaves once [create] has returned [p]
    in the environment [w].  The product and its item are appended.
    When the browser finds the two buttons of the item, the name and the
    price of the form are emptied; when it does not, the message of the
    [TypeError] is shown in an alert and the form keeps its text. *)
Definition listed (p : product) (w : world) (s : page) : page :=
  if buttons_found w p then after_create p (UI.item_markup p) w s
  else
    with_alerts (alerts s ++ message (null_button w p) :: nil)%list
      (after_clone p (UI.item_markup p) w s).

(** What the clone listener ends in once [create] has returned [q] in
    the environment [w].  The product and its item are appended; the
    listener returns when the browser finds the two buttons of the item
    and throws the [TypeError] when it does not. *)
Definition cloned (q : product) (w : world) (s : page)
  : outcome (option product) * page :=
  (if buttons_found w q then Returned (Some q) else Thrown (null_button w q),
   after_clone q (UI.item_markup q) w s).

(** One of the four creators the script defines: the base one or a
    built-in one. *)
Definition scripted (c : creator) : Prop :=
  c = ProductCreator \/ built_in c.

(** A clock that advances by a millisecond at each reading. *)
Definition ticking : world :=
  World (fun i => 1700000000000 + Z.of_nat i)
        (fun _ => Num.of_decimal 5 (-1)) 0 0
        (query_selector Sample.still) (null_message Sample.still).


(** The items of the list are distinct nodes, all made before the next
    one. *)
Definition nodes_fresh (s : page) : Prop :=
  NoDup (map li_node (productList s))
  /\ Forall (fun l => (li_node l < nodes s)%nat) (productList s).



(** * Properties *)

(** ** The monad and the page *)

Ltac run := unfold bind, ret, throw, read, update, lift in *; cbn beta iota.

Lemma with_registry_same (s : page) : with_registry (registry s) s = s.
Proof. now destruct s. Qed.

Lemma with_env_same (s : page) : with_env (env s) s = s.
Proof. now destruct s. Qed.

Lemma registry_startup (w : world) (f : form) :
  registry (startup w f) = ProductFactory.initial.
Proof. reflexivity. Qed.

(** ** [Map] *)

Section JsMapFacts.
Context {V : Type}.
Implicit Types (m : JsMap.t V) (k : string) (v : V).

Lemma get_replace_eq k v m :
  JsMap.has k m = true -> JsMap.get k (JsMap.replace k v m) = Some v.
Proof.
  unfold JsMap.has. induction m as [|[k' v'] m IH]; cbn; [discriminate|].
  destruct (String.eqb k k') eqn:E; cbn; rewrite E; auto.
Qed.

Lemma get_replace_ne k k' v m :
  k <> k' -> JsMap.get k' (JsMap.replace k v m) = JsMap.get k' m.
Proof.
  intros Hne. induction m as [|[k0 v0] m IH]; cbn; [reflexivity|].
  destruct (String.eqb k k0) eqn:E; cbn.
  - apply String.eqb_eq in E. subst k0.
    destruct (String.eqb k' k) eqn:E'; [|reflexivity].
    apply String.eqb_eq in E'. congruence.
  - now rewrite IH.
Qed.

Lemma get_app k m m' :
  JsMap.get k (m ++ m')%list
  = match JsMap.get k m with Some v => Some v | None => JsMap.get k m' end.
Proof.
  induction m as [|[k0 v0] m IH]; cbn; [reflexivity|].
  now destruct (String.eqb k k0).
Qed.

Lemma get_set_eq k v m : JsMap.get k (JsMap.set k v m) = Some v.
Proof.
  unfold JsMap.set. destruct (JsMap.has k m) eqn:H.
  - now apply get_replace_eq.
  - rewrite get_app. unfold JsMap.has in H.
    destruct (JsMap.get k m); [discriminate|]. cbn.
    now rewrite String.eqb_refl.
Qed.

Lemma get_set_ne k k' v m :
  k <> k' -> JsMap.get k' (JsMap.set k v m) = JsMap.get k' m.
Proof.
  intros Hne. unfold JsMap.set. destruct (JsMap.has k m).
  - now apply get_replace_ne.
  - rewrite get_app. destruct (JsMap.get k' m); [reflexivity|]. cbn.
    destruct (String.eqb k' k) eqn:E; [|reflexivity].
    apply String.eqb_eq in E. congruence.
Qed.

Lemma keys_replace k v m : JsMap.keys (JsMap.replace k v m) = JsMap.keys m.
Proof.
  unfold JsMap.keys. induction m as [|[k0 v0] m IH]; cbn; [reflexivity|].
  destruct (String.eqb k k0); cbn; congruence.
Qed.

Lemma get_None_keys k m : JsMap.get k m = None <-> ~ In k (JsMap.keys m).
Proof.
  unfold JsMap.keys. induction m as [|[k0 v0] m IH]; cbn; [tauto|].
  destruct (String.eqb k k0) eqn:E.
  - apply String.eqb_eq in E. subst. split; [discriminate|tauto].
  - apply String.eqb_neq in E. rewrite IH. split; [|tauto].
    intros H [H'|H']; [congruence|tauto].
Qed.

(** One entry per key: [set] and [delete] keep the keys distinct. *)
Lemma NoDup_keys_set k v m :
  NoDup (JsMap.keys m) -> NoDup (JsMap.keys (JsMap.set k v m)).
Proof.
  intros H. unfold JsMap.set. destruct (JsMap.has k m) eqn:E.
  - now rewrite keys_replace.
  - unfold JsMap.keys. rewrite map_app. cbn.
    apply NoDup_app. repeat split; auto.
    + intros x Hx Hx'. apply list_elem_of_In in Hx, Hx'.
      destruct Hx' as [<-|[]].
      unfold JsMap.has in E. destruct (JsMap.get k m) eqn:G; [discriminate|].
      now apply get_None_keys in G.
    + apply NoDup_cons. split; [|constructor]. intros Hx.
      now apply list_elem_of_In in Hx.
Qed.

Lemma get_delete_eq k m : JsMap.get k (JsMap.delete k m) = None.
Proof.
  unfold JsMap.delete. induction m as [|[k0 v0] m IH]; cbn; [reflexivity|].
  destruct (String.eqb k k0) eqn:E; cbn; [assumption|]. now rewrite E.
Qed.

Lemma get_delete_ne k k' m :
  k <> k' -> JsMap.get k' (JsMap.delete k m) = JsMap.get k' m.
Proof.
  intros Hne. unfold JsMap.delete.
  induction m as [|[k0 v0] m IH]; cbn; [reflexivity|].
  destruct (String.eqb k k0) eqn:E; cbn.
  - apply String.eqb_eq in E. subst k0.
    destruct (String.eqb k' k) eqn:E'; [|assumption].
    apply String.eqb_eq in E'. congruence.
  - now rewrite IH.
Qed.

Lemma delete_absent k m : JsMap.get k m = None -> JsMap.delete k m = m.
Proof.
  unfold JsMap.delete. induction m as [|[k0 v0] m IH]; cbn; [reflexivity|].
  destruct (String.eqb k k0) eqn:E; [discriminate|]. cbn.
  intros H. now rewrite IH.
Qed.

End JsMapFacts.

(** ** Rounding to binary64 *)

Lemma fexp_64 (e : Z) : fexp Num.prec Num.emax e = fexp64 e.
Proof. reflexivity. Qed.

Lemma iter_pos_nat {A} (f : A -> A) (p : positive) (x : A) :
  SpecFloat.iter_pos f p x = Nat.iter (Pos.to_nat p) f x.
Proof.
  revert x. induction p as [p IH|p IH|]; intros x; cbn [SpecFloat.iter_pos].
  - rewrite !IH, Pos2Nat.inj_xI, <- Nat.iter_add.
    replace (S (2 * Pos.to_nat p)) with (S (Pos.to_nat p + Pos.to_nat p))%nat by lia.
    now rewrite Nat.iter_succ_r.
  - rewrite !IH, Pos2Nat.inj_xO, <- Nat.iter_add. f_equal. lia.
  - reflexivity.
Qed.

Lemma Zdigits2_nonneg (m : Z) : 0 <= Zdigits2 m.
Proof. destruct m; cbn; lia. Qed.

Lemma Zdigits2_pos (m : Z) : 0 < m -> 0 < Zdigits2 m.
Proof. destruct m; cbn; lia. Qed.

Lemma Zdigits2_zero (m : Z) : 0 <= m -> Zdigits2 m = 0 -> m = 0.
Proof. destruct m; cbn; lia. Qed.

Lemma shr_1_nonneg (s : shr_record) : 0 <= shr_m s -> 0 <= shr_m (shr_1 s).
Proof. destruct s as [[|[p|p|]|[p|p|]] r t]; cbn; lia. Qed.

Lemma shr_1_digits (s : shr_record) :
  Zdigits2 (shr_m (shr_1 s)) = Z.max 0 (Zdigits2 (shr_m s) - 1).
Proof. destruct s as [[|[p|p|]|[p|p|]] r t]; cbn; lia. Qed.

Lemma shr_iter_digits (n : nat) (s : shr_record) :
  0 <= shr_m s ->
  0 <= shr_m (Nat.iter n shr_1 s)
  /\ Zdigits2 (shr_m (Nat.iter n shr_1 s))
     = Z.max 0 (Zdigits2 (shr_m s) - Z.of_nat n).
Proof.
  intros H. induction n as [|n [IH1 IH2]].
  - cbn. pose proof (Zdigits2_nonneg (shr_m s)). lia.
  - rewrite Nat.iter_succ. split; [now apply shr_1_nonneg|].
    rewrite shr_1_digits, IH2. lia.
Qed.

Lemma shr_m_of_loc (m : Z) (l : location) : shr_m (shr_record_of_loc m l) = m.
Proof. destruct l as [|[]]; reflexivity. Qed.

(** After [shr_fexp] the exponent is the one the format gives to the
    magnitude, and a mantissa that is left has that many digits. *)
Lemma shr_fexp_digits (m e : Z) (l : location) :
  0 <= m -> e <= fexp64 (Zdigits2 m + e) ->
  let '(mrs, e') := shr_fexp Num.prec Num.emax m e l in
  e' = fexp64 (Zdigits2 m + e)
  /\ 0 <= shr_m mrs
  /\ Zdigits2 (shr_m mrs) = Z.max 0 (Zdigits2 m - (e' - e)).
Proof.
  intros Hm He. unfold shr_fexp, shr. rewrite fexp_64.
  destruct (fexp64 (Zdigits2 m + e) - e) as [|p|p] eqn:S; [| |lia].
  - rewrite shr_m_of_loc. pose proof (Zdigits2_nonneg m). repeat split; lia.
  - rewrite iter_pos_nat.
    destruct (shr_iter_digits (Pos.to_nat p) (shr_record_of_loc m l)) as [H1 H2].
    { now rewrite shr_m_of_loc. }
    rewrite shr_m_of_loc in H2. repeat split; lia.
Qed.

Lemma round_nearest_even_range (m : Z) (l : location) :
  round_nearest_even m l = m \/ round_nearest_even m l = m + 1.
Proof. destruct l as [|[]]; cbn; auto. destruct (Z.even m); auto. Qed.

Lemma Zdigits2_mono (a b : Z) : 0 <= a <= b -> Zdigits2 a <= Zdigits2 b.
Proof.
  intros H. destruct a as [|a|a], b as [|b|b]; cbn; try lia.
  assert (G : forall p q : positive, (p <= q)%positive ->
                (digits2_pos p <= digits2_pos q)%positive).
  { induction p as [p IH|p IH|]; intros [q|q|] Hpq; cbn; try lia;
      try (specialize (IH q); lia). }
  specialize (G a b). lia.
Qed.

Lemma fexp64_mono (a b : Z) : a <= b -> fexp64 a <= fexp64 b.
Proof. unfold fexp64. lia. Qed.

(** What [binary_round_aux] returns is a binary64 number, whenever the
    mantissa it is given has at least the digits the format keeps. *)
Lemma binary_round_aux_valid (sx : bool) (m e : Z) (l : location) :
  0 <= m -> e <= fexp64 (Zdigits2 m + e) ->
  valid_binary Num.prec Num.emax (binary_round_aux Num.prec Num.emax sx m e l)
  = true.
Proof.
  intros Hm He. unfold binary_round_aux.
  pose proof (shr_fexp_digits m e l Hm He) as H1.
  destruct (shr_fexp Num.prec Num.emax m e l) as [mrs1 e1].
  destruct H1 as (E1 & P1 & D1).
  set (m2 := round_nearest_even (shr_m mrs1) (loc_of_shr_record mrs1)).
  assert (R : m2 = shr_m mrs1 \/ m2 = shr_m mrs1 + 1)
    by apply round_nearest_even_range.
  assert (Hm2 : 0 <= m2) by lia.
  assert (He2 : e1 <= fexp64 (Zdigits2 m2 + e1)).
  { pose proof (Zdigits2_mono (shr_m mrs1) m2 ltac:(lia)) as Hd.
    pose proof (Zdigits2_nonneg m2).
    pose proof (Zdigits2_nonneg m).
    unfold fexp64 in *. lia. }
  pose proof (shr_fexp_digits m2 e1 loc_Exact Hm2 He2) as H2.
  destruct (shr_fexp Num.prec Num.emax m2 e1 loc_Exact) as [mrs2 e2].
  destruct H2 as (E2 & P2 & D2).
  destruct (shr_m mrs2) as [|m3|m3] eqn:M3; [reflexivity| |lia].
  destruct (e2 <=? Num.emax - Num.prec) eqn:B; [|reflexivity].
  cbn [valid_binary]. unfold bounded, canonical_mantissa.
  rewrite B, andb_true_r, fexp_64. apply Z.eqb_eq.
  change (Z.pos (digits2_pos m3)) with (Zdigits2 (Z.pos m3)).
  rewrite D2. pose proof (Zdigits2_pos (Z.pos m3) ltac:(lia)) as Hp.
  rewrite D2 in Hp. unfold fexp64 in *. lia.
Qed.

(** *** The number of binary digits *)

Lemma digits2_size (p : positive) : digits2_pos p = Pos.size p.
Proof. induction p; cbn; congruence. Qed.

Lemma Zdigits2_log2 (x : Z) : 0 < x -> Zdigits2 x = Z.log2 x + 1.
Proof.
  destruct x as [|p|p]; try lia. intros _. cbn [Zdigits2].
  rewrite digits2_size. destruct p; cbn; lia.
Qed.

Lemma Zdigits2_bounds (x : Z) :
  0 < x -> 2 ^ (Zdigits2 x - 1) <= x < 2 ^ Zdigits2 x.
Proof.
  intros H. rewrite (Zdigits2_log2 x H).
  replace (Z.log2 x + 1 - 1) with (Z.log2 x) by lia.
  pose proof (Z.log2_spec x H). rewrite <- Z.add_1_r in *. lia.
Qed.

Lemma Zdigits2_ge (x k : Z) : 0 <= k -> 2 ^ k <= x -> k + 1 <= Zdigits2 x.
Proof.
  intros Hk H. assert (Hx : 0 < x) by (pose proof (Z.pow_pos_nonneg 2 k); lia).
  rewrite (Zdigits2_log2 x Hx).
  pose proof (Z.log2_le_mono _ _ H) as L. rewrite Z.log2_pow2 in L by lia. lia.
Qed.

Lemma Zdigits2_le (x k : Z) : 0 <= k -> 0 <= x < 2 ^ k -> Zdigits2 x <= k.
Proof.
  intros Hk H. destruct (Z.eq_dec x 0) as [->|N]; [cbn; lia|].
  assert (Hx : 0 < x) by lia. rewrite (Zdigits2_log2 x Hx).
  pose proof (Z.log2_lt_pow2 x k Hx). lia.
Qed.

Lemma Zdigits2_shift (x j : Z) :
  0 < x -> 0 <= j -> Zdigits2 (x * 2 ^ j) = Zdigits2 x + j.
Proof.
  intros Hx Hj. pose proof (Zdigits2_bounds x Hx) as [B1 B2].
  pose proof (Zdigits2_pos x Hx) as P.
  assert (H2 : 0 < 2 ^ j) by (apply Z.pow_pos_nonneg; lia).
  apply Z.le_antisymm.
  - apply Zdigits2_le; [lia|]. rewrite Z.pow_add_r by lia. nia.
  - replace (Zdigits2 x + j) with ((Zdigits2 x - 1 + j) + 1) by lia.
    apply Zdigits2_ge; [lia|]. rewrite Z.pow_add_r by lia. nia.
Qed.

Lemma Zdigits2_mul (x y : Z) :
  0 < x -> 0 < y -> Zdigits2 (x * y) <= Zdigits2 x + Zdigits2 y.
Proof.
  intros Hx Hy. pose proof (Zdigits2_bounds x Hx) as [_ B1].
  pose proof (Zdigits2_bounds y Hy) as [_ B2].
  pose proof (Zdigits2_nonneg x). pose proof (Zdigits2_nonneg y).
  apply Zdigits2_le; [lia|]. rewrite Z.pow_add_r by lia. nia.
Qed.

(** *** Numbers of the format *)

Lemma valid_neg (x : Num.number) : valid (Num.neg x) = valid x.
Proof. now destruct x. Qed.

Lemma pos_iter_xO (p d : positive) :
  Z.pos (Pos.iter xO p d) = Z.pos p * 2 ^ Z.pos d.
Proof.
  revert p. induction d as [|d IH] using Pos.peano_ind; intros p.
  - cbn. lia.
  - rewrite Pos.iter_succ, Pos2Z.inj_xO, IH, Pos2Z.inj_succ, Z.pow_succ_r; lia.
Qed.

Lemma binary_round_valid (sx : bool) (p : positive) (e : Z) :
  valid (binary_round Num.prec Num.emax sx p e) = true.
Proof.
  unfold binary_round, shl_align. rewrite fexp_64.
  change (Z.pos (digits2_pos p)) with (Zdigits2 (Z.pos p)).
  destruct (fexp64 (Zdigits2 (Z.pos p) + e) - e) as [|d|d] eqn:S.
  - apply binary_round_aux_valid; lia.
  - apply binary_round_aux_valid; lia.
  - apply binary_round_aux_valid; [lia|].
    rewrite pos_iter_xO, Zdigits2_shift by lia.
    unfold fexp64 in *. lia.
Qed.

Lemma div_core_valid (sx : bool) (p t : positive) :
  let '(q, e, l) :=
    SFdiv_core_binary Num.prec Num.emax (Z.pos p) 0 (Z.pos t) 0 in
  valid (binary_round_aux Num.prec Num.emax sx q e l) = true.
Proof.
  unfold SFdiv_core_binary. rewrite fexp_64, !Z.add_0_r, Z.sub_0_r.
  set (d1 := Zdigits2 (Z.pos p)). set (d2 := Zdigits2 (Z.pos t)).
  set (e := Z.min (fexp64 (d1 - d2)) 0).
  set (m' := match 0 - e with
             | Z0 => Z.pos p
             | Z.pos _ => Z.shiftl (Z.pos p) (0 - e)
             | Z.neg _ => 0
             end).
  assert (Hm : m' = Z.pos p * 2 ^ (- e)).
  { subst m'. assert (He : e <= 0) by (subst e; lia).
    destruct (0 - e) eqn:S; try lia.
    - replace (- e) with 0 by lia. lia.
    - rewrite Z.shiftl_mul_pow2 by lia. f_equal. f_equal. lia. }
  assert (D : Z.div_eucl m' (Z.pos t) = (m' / Z.pos t, m' mod Z.pos t)).
  { unfold Z.div, Z.modulo. now destruct (Z.div_eucl m' (Z.pos t)). }
  rewrite D. clear D.
  assert (He : e <= 0) by (subst e; lia).
  assert (H2 : 0 < 2 ^ (- e)) by (apply Z.pow_pos_nonneg; lia).
  assert (Hm0 : 0 <= m') by (rewrite Hm; apply Z.mul_nonneg_nonneg; lia).
  assert (Hq : 0 <= m' / Z.pos t) by (apply Z.div_pos; lia).
  apply binary_round_aux_valid; [assumption|].
  apply Z.le_trans with (fexp64 (d1 - d2)); [subst e; lia|].
  apply fexp64_mono.
  destruct (Z_le_gt_dec (d1 - e - d2) 0) as [L|G].
  { pose proof (Zdigits2_nonneg (m' / Z.pos t)). lia. }
  assert (K : d1 - e - d2 - 1 + 1 <= Zdigits2 (m' / Z.pos t)); [|lia].
  apply Zdigits2_ge; [lia|].
  pose proof (Zdigits2_bounds (Z.pos p) ltac:(lia)) as [B1 _].
  pose proof (Zdigits2_bounds (Z.pos t) ltac:(lia)) as [_ B2].
  fold d1 in B1. fold d2 in B2.
  assert (Hd1 : 0 < d1) by (apply Zdigits2_pos; lia).
  assert (Hd2 : 0 < d2) by (apply Zdigits2_pos; lia).
  assert (P1 : 2 ^ (d1 - 1) * 2 ^ (- e) = 2 ^ (d1 - e - d2 - 1) * 2 ^ d2).
  { rewrite <- !Z.pow_add_r by lia. f_equal. lia. }
  assert (P0 : 0 < 2 ^ (d1 - e - d2 - 1)) by (apply Z.pow_pos_nonneg; lia).
  apply Z.div_le_lower_bound; [lia|]. nia.
Qed.

Lemma of_decimal_valid (n : N) (e : Z) : valid (Num.of_decimal n e) = true.
Proof.
  unfold Num.of_decimal. destruct n as [|p]; [reflexivity|].
  destruct e as [|e|e]; try apply binary_round_valid.
  pose proof (div_core_valid false p (10 ^ e)) as H.
  destruct (SFdiv_core_binary _ _ _ _ _ _) as [[q e'] l]. exact H.
Qed.

(** *** Rounding a number of the format gives it back *)

Lemma shr_1_exact (m : Z) :
  0 <= m ->
  shr_1 (Build_shr_record (2 * m) false false) = Build_shr_record m false false.
Proof. destruct m as [|p|p]; try lia; reflexivity. Qed.

Lemma shr_iter_exact (n : nat) (m : Z) :
  0 <= m ->
  Nat.iter n shr_1 (Build_shr_record (m * 2 ^ Z.of_nat n) false false)
  = Build_shr_record m false false.
Proof.
  intros Hm. revert m Hm. induction n as [|n IH]; intros m Hm.
  - cbn. f_equal. lia.
  - rewrite Nat.iter_succ_r, Nat2Z.inj_succ, Z.pow_succ_r by lia.
    replace (m * (2 * 2 ^ Z.of_nat n)) with (2 * (m * 2 ^ Z.of_nat n)) by lia.
    rewrite shr_1_exact; [now apply IH|].
    apply Z.mul_nonneg_nonneg; [lia|]. apply Z.pow_nonneg. lia.
Qed.

Lemma bounded_canonical (m : positive) (e : Z) :
  bounded Num.prec Num.emax m e = true ->
  fexp64 (Zdigits2 (Z.pos m) + e) = e /\ e <= Num.emax - Num.prec.
Proof.
  unfold bounded, canonical_mantissa. rewrite fexp_64.
  intros H. apply andb_true_iff in H as [H1 H2].
  apply Z.eqb_eq in H1. apply Z.leb_le in H2. auto.
Qed.

(** A mantissa of the format followed by [j] zero bits rounds to it. *)
Lemma binary_round_aux_exact (m : positive) (e j : Z) :
  bounded Num.prec Num.emax m e = true -> 0 <= j ->
  binary_round_aux Num.prec Num.emax false (Z.pos m * 2 ^ j) (e - j) loc_Exact
  = S754_finite false m e.
Proof.
  intros B Hj. destruct (bounded_canonical m e B) as [C Le].
  assert (S1 : shr_fexp Num.prec Num.emax (Z.pos m * 2 ^ j) (e - j) loc_Exact
               = (Build_shr_record (Z.pos m) false false, e)).
  { unfold shr_fexp, shr. rewrite fexp_64, Zdigits2_shift by lia.
    replace (Zdigits2 (Z.pos m) + j + (e - j)) with (Zdigits2 (Z.pos m) + e)
      by lia.
    rewrite C. cbn [shr_record_of_loc].
    destruct (e - (e - j)) as [|p|p] eqn:P; try lia.
    - replace j with 0 by lia. f_equal; [f_equal|]; lia.
    - rewrite iter_pos_nat. replace j with (Z.of_nat (Pos.to_nat p)) by lia.
      rewrite shr_iter_exact by lia. f_equal. lia. }
  assert (S2 : shr_fexp Num.prec Num.emax (Z.pos m) e loc_Exact
               = (Build_shr_record (Z.pos m) false false, e)).
  { unfold shr_fexp, shr. rewrite fexp_64, C, Z.sub_diag. reflexivity. }
  unfold binary_round_aux. rewrite S1. cbn [shr_m loc_of_shr_record
    round_nearest_even]. rewrite S2. cbn [shr_m].
  apply Z.leb_le in Le. now rewrite Le.
Qed.

Lemma new_location_exact (n : Z) : new_location n 0 = loc_Exact.
Proof. unfold new_location. now destruct (Z.even n). Qed.

(** The exact decimal expansion of a number of the format has that
    number as its Number value. *)
Lemma of_decimal_exact (m : positive) (e : Z) :
  bounded Num.prec Num.emax m e = true ->
  let '(D, E) := Num.exact_decimal m e in
  Num.of_decimal D E = S754_finite false m e.
Proof.
  intros B. destruct (bounded_canonical m e B) as [C Le].
  unfold Num.exact_decimal. destruct e as [|q|q].
  - assert (EN : (N.pos m * 2 ^ Z.to_N 0)%N = N.pos m) by (cbn; lia).
    rewrite EN. cbn [Num.of_decimal].
    change (Z.to_pos (10 ^ 0)) with 1%positive. rewrite Pos.mul_1_r.
    unfold binary_round, shl_align. rewrite fexp_64.
    change (Z.pos (digits2_pos m)) with (Zdigits2 (Z.pos m)).
    rewrite C. cbn [Z.sub Z.add Z.opp].
    pose proof (binary_round_aux_exact m 0 0 B ltac:(lia)) as H.
    cbn [Z.pow Z.sub Z.opp Z.add] in H. now rewrite Z.mul_1_r in H.
  - assert (EN : (N.pos m * 2 ^ Z.to_N (Z.pos q))%N = N.pos (m * 2 ^ q)).
    { cbn [Z.to_N]. apply N2Z.inj. rewrite N2Z.inj_mul, N2Z.inj_pow.
      cbn [Z.of_N]. rewrite Pos2Z.inj_mul, Pos2Z.inj_pow. reflexivity. }
    rewrite EN. cbn [Num.of_decimal].
    change (Z.to_pos (10 ^ 0)) with 1%positive. rewrite Pos.mul_1_r.
    unfold binary_round, shl_align. rewrite fexp_64.
    change (Z.pos (digits2_pos (m * 2 ^ q)))
      with (Zdigits2 (Z.pos (m * 2 ^ q))).
    rewrite Pos2Z.inj_mul, Pos2Z.inj_pow, Zdigits2_shift by lia.
    rewrite Z.add_0_r, C. cbn [Z.sub Z.opp Z.add].
    pose proof (binary_round_aux_exact m (Z.pos q) (Z.pos q) B ltac:(lia)) as H.
    rewrite Z.sub_diag in H. rewrite <- H. f_equal.
    now rewrite Pos2Z.inj_mul, Pos2Z.inj_pow.
  - cbn [Num.of_decimal].
    unfold SFdiv_core_binary. rewrite fexp_64, !Z.add_0_r, Z.sub_0_r.
    set (d1 := Zdigits2 (Z.pos (m * 5 ^ q))).
    set (d2 := Zdigits2 (Z.pos (10 ^ q))).
    set (e' := Z.min (fexp64 (d1 - d2)) 0).
    assert (T : Z.pos (10 ^ q) = Z.pos (5 ^ q) * 2 ^ Z.pos q).
    { rewrite !Pos2Z.inj_pow, <- Z.pow_mul_l. reflexivity. }
    assert (Hd : d1 - d2 <= Zdigits2 (Z.pos m) + Z.neg q).
    { subst d1 d2. rewrite T, Zdigits2_shift by lia.
      rewrite Pos2Z.inj_mul.
      pose proof (Zdigits2_mul (Z.pos m) (Z.pos (5 ^ q)) ltac:(lia) ltac:(lia)).
      lia. }
    assert (He : e' <= Z.neg q).
    { subst e'. pose proof (fexp64_mono _ _ Hd). lia. }
    set (j := Z.neg q - e').
    assert (M : match 0 - e' with
                | 0 => Z.pos (m * 5 ^ q)
                | Z.pos _ => Z.shiftl (Z.pos (m * 5 ^ q)) (0 - e')
                | Z.neg _ => 0
                end = Z.pos m * 2 ^ j * Z.pos (10 ^ q)).
    { destruct (0 - e') eqn:S; try lia.
      rewrite Z.shiftl_mul_pow2 by lia. rewrite T, Pos2Z.inj_mul.
      replace (Z.pos p) with (j + Z.pos q) by (subst j; lia).
      rewrite Z.pow_add_r by (subst j; lia). ring. }
    rewrite M.
    assert (D : Z.div_eucl (Z.pos m * 2 ^ j * Z.pos (10 ^ q)) (Z.pos (10 ^ q))
                = (Z.pos m * 2 ^ j, 0)).
    { pose proof (Z.div_mul (Z.pos m * 2 ^ j) (Z.pos (10 ^ q)) ltac:(lia)) as D1.
      pose proof (Z.mod_mul (Z.pos m * 2 ^ j) (Z.pos (10 ^ q)) ltac:(lia)) as D2.
      unfold Z.div, Z.modulo in D1, D2.
      destruct (Z.div_eucl _ _) as [a b]. cbn in D1, D2. congruence. }
    rewrite D, new_location_exact.
    replace e' with (Z.neg q - j) by (subst j; lia).
    apply binary_round_aux_exact; [assumption|subst j; lia].
Qed.

(** ** Decimal digits, printed and read back *)

Lemma append_cons (c : ascii) (a b : string) :
  String c a ++ b = String c (a ++ b).
Proof. reflexivity. Qed.

Lemma append_nil (b : string) : "" ++ b = b.
Proof. reflexivity. Qed.

Ltac push_append := rewrite ?append_cons, ?append_nil.

Lemma all_digits_app (a b : string) :
  all_digits (a ++ b) = all_digits a && all_digits b.
Proof.
  induction a as [|c a IH]; push_append; cbn; [reflexivity|].
  now rewrite IH, andb_assoc.
Qed.

Lemma span_digits_app (a r : string) :
  all_digits a = true -> no_digit_ahead r ->
  Str.span_digits (a ++ r) = (a, r).
Proof.
  intros Ha Hr. induction a as [|c a IH]; push_append; cbn.
  - destruct r as [|c r]; cbn; [reflexivity|]. cbn in Hr. now rewrite Hr.
  - cbn in Ha. apply andb_true_iff in Ha as [Hc Ha].
    rewrite Hc, (IH Ha). reflexivity.
Qed.

Lemma append_empty (a : string) : a ++ "" = a.
Proof. induction a as [|c a IH]; push_append; congruence. Qed.

Lemma append_assoc (a b c : string) : (a ++ b) ++ c = a ++ b ++ c.
Proof. induction a as [|x a IH]; push_append; congruence. Qed.

Lemma span_digits_all (a : string) :
  all_digits a = true -> Str.span_digits a = (a, "").
Proof.
  intros H. rewrite <- (append_empty a) at 1.
  now apply span_digits_app.
Qed.

Lemma digits_value_from_app (acc : N) (a b : string) :
  Str.digits_value_from acc (a ++ b)
  = Str.digits_value_from (Str.digits_value_from acc a) b.
Proof.
  revert acc. induction a as [|c a IH]; intros acc; push_append; cbn; auto.
Qed.

Lemma digits_value_from_zeros (acc : N) (j : nat) :
  Str.digits_value_from acc (Num.zeros j) = (acc * 10 ^ N.of_nat j)%N.
Proof.
  revert acc. induction j as [|j IH]; intros acc.
  - cbn. lia.
  - cbn [Num.zeros Str.digits_value_from]. rewrite IH.
    change (Str.digit_value "0") with 0%N.
    rewrite Nat2N.inj_succ, N.pow_succ_r'. lia.
Qed.

Lemma all_digits_zeros (j : nat) : all_digits (Num.zeros j) = true.
Proof. induction j; cbn; auto. Qed.

Lemma string_of_uint_digits (d : Decimal.uint) :
  all_digits (NilEmpty.string_of_uint d) = true.
Proof. induction d; cbn; auto. Qed.

Lemma digits_value_of_uint_acc (d : Decimal.uint) (acc : positive) :
  Str.digits_value_from (Npos acc) (NilEmpty.string_of_uint d)
  = Npos (Pos.of_uint_acc d acc).
Proof.
  revert acc. induction d; intros acc; cbn [NilEmpty.string_of_uint
    Str.digits_value_from Pos.of_uint_acc]; try reflexivity;
    rewrite <- IHd; f_equal; vm_compute Str.digit_value; lia.
Qed.

Lemma digits_value_of_uint (d : Decimal.uint) :
  Str.digits_value (NilEmpty.string_of_uint d) = N.of_uint d.
Proof.
  unfold Str.digits_value, N.of_uint.
  induction d; cbn [NilEmpty.string_of_uint Str.digits_value_from Pos.of_uint];
    try reflexivity; try exact IHd;
    apply digits_value_of_uint_acc.
Qed.

Lemma digits_unfold (n : N) :
  Num.digits n = NilEmpty.string_of_uint (N.to_uint n).
Proof.
  unfold Num.digits, NilZero.string_of_uint.
  destruct (N.to_uint n) eqn:E; try reflexivity.
  destruct n; cbn in E; [discriminate|].
  now apply DecimalPos.Unsigned.to_uint_nonnil in E.
Qed.

Lemma all_digits_digits (n : N) : all_digits (Num.digits n) = true.
Proof. rewrite digits_unfold. apply string_of_uint_digits. Qed.

Lemma digits_value_digits (n : N) : Str.digits_value (Num.digits n) = n.
Proof.
  rewrite digits_unfold, digits_value_of_uint.
  apply DecimalN.Unsigned.of_to.
Qed.

Lemma digits_nonempty (n : N) : Num.digits n <> "".
Proof.
  rewrite digits_unfold. destruct n; cbn; [discriminate|].
  pose proof (DecimalPos.Unsigned.to_uint_nonnil p) as H.
  destruct (Pos.to_uint p); cbn; congruence.
Qed.

Lemma take_drop (n : nat) (s : string) : Num.take n s ++ Num.drop n s = s.
Proof.
  revert s. induction n as [|n IH]; intros [|c s]; cbn; try reflexivity.
  push_append. now rewrite IH.
Qed.

Lemma all_digits_take (n : nat) (s : string) :
  all_digits s = true -> all_digits (Num.take n s) = true.
Proof.
  revert s. induction n as [|n IH]; intros [|c s]; cbn; auto.
  intros H. apply andb_true_iff in H as [-> H]. now apply IH.
Qed.

Lemma all_digits_drop (n : nat) (s : string) :
  all_digits s = true -> all_digits (Num.drop n s) = true.
Proof.
  revert s. induction n as [|n IH]; intros [|c s]; cbn; auto.
  intros H. apply andb_true_iff in H as [_ H]. now apply IH.
Qed.

Lemma length_drop (n : nat) (s : string) :
  String.length (Num.drop n s) = (String.length s - n)%nat.
Proof.
  revert s. induction n as [|n IH]; intros [|c s]; cbn; auto.
Qed.

Lemma take_nonempty (n : nat) (s : string) :
  (0 < n)%nat -> s <> "" -> Num.take n s <> "".
Proof. destruct n, s; cbn; try lia; congruence. Qed.

Lemma length_append (a b : string) :
  String.length (a ++ b) = (String.length a + String.length b)%nat.
Proof. induction a as [|c a IH]; push_append; cbn; auto. Qed.

Lemma length_zeros (j : nat) : String.length (Num.zeros j) = j.
Proof. induction j; cbn; auto. Qed.

(** *** Reading a literal back *)

Lemma not_Infinity (c : ascii) (r : string) :
  c <> "I"%char -> Str.starts_with "Infinity" (String c r) = false.
Proof.
  intros H. unfold Str.starts_with.
  destruct c as [[] [] [] [] [] [] [] []]; try reflexivity. congruence.
Qed.

Lemma digit_not_I (c : ascii) : Str.is_digit c = true -> c <> "I"%char.
Proof. intros H ->. discriminate. Qed.

Lemma unsigned_literal_integer (a r : string) :
  all_digits a = true -> a <> "" -> no_digit_ahead r -> no_dot_ahead r ->
  Str.unsigned_literal (a ++ r)
  = Some (Num.of_decimal (Str.digits_value a) (Str.exponent_part r)).
Proof.
  intros Ha Hne Hr Hd. unfold Str.unsigned_literal.
  destruct a as [|c a]; [congruence|]. push_append.
  cbn in Ha. apply andb_true_iff in Ha as [Hc Ha].
  rewrite not_Infinity by now apply digit_not_I.
  rewrite <- append_cons, span_digits_app; [| cbn; now rewrite Hc, Ha | assumption].
  assert (E : match r with
              | String "."%char r' => Str.span_digits r'
              | _ => ("", r)
              end = ("", r)).
  { destruct r as [|x r]; [reflexivity|]. cbn in Hd.
    destruct (Ascii.ascii_dec x ".") as [->|N]; [congruence|].
    destruct x as [[] [] [] [] [] [] [] []]; try reflexivity. congruence. }
  rewrite E. rewrite append_empty. cbn [String.length Z.of_nat].
  now rewrite Z.sub_0_r.
Qed.

Lemma unsigned_literal_fraction (a b r : string) :
  all_digits a = true -> all_digits b = true -> a <> "" ->
  no_digit_ahead r ->
  Str.unsigned_literal (a ++ "." ++ b ++ r)
  = Some (Num.of_decimal (Str.digits_value (a ++ b))
            (Str.exponent_part r - Z.of_nat (String.length b))).
Proof.
  intros Ha Hb Hne Hr. unfold Str.unsigned_literal.
  destruct a as [|c a]; [congruence|]. push_append.
  cbn in Ha. apply andb_true_iff in Ha as [Hc Ha].
  rewrite not_Infinity by now apply digit_not_I.
  rewrite <- append_cons, span_digits_app;
    [| cbn; now rewrite Hc, Ha | reflexivity].
  push_append. rewrite span_digits_app by assumption.
  reflexivity.
Qed.

Lemma exponent_part_signed (neg : bool) (a : string) :
  all_digits a = true -> a <> "" ->
  Str.exponent_part ("e" ++ (if neg then "-" else "+") ++ a)
  = if neg then - Z.of_N (Str.digits_value a) else Z.of_N (Str.digits_value a).
Proof.
  intros Ha Hne. destruct neg; push_append; cbn -[Str.span_digits];
    rewrite (span_digits_all a Ha);
    change ((Str.code "e" =? 101)%nat || (Str.code "e" =? 69)%nat) with true;
    cbv iota; destruct a; congruence.
Qed.

Lemma of_decimal_scaled (s : N) (j : nat) :
  Num.of_decimal (s * 10 ^ N.of_nat j) 0 = Num.of_decimal s (Z.of_nat j).
Proof.
  destruct s as [|p]; [reflexivity|].
  assert (E : (N.pos p * 10 ^ N.of_nat j)%N = N.pos (p * Z.to_pos (10 ^ Z.of_nat j))).
  { assert (H : 0 < 10 ^ Z.of_nat j) by lia.
    apply N2Z.inj. rewrite N2Z.inj_mul, N2Z.inj_pow, nat_N_Z. cbn [Z.of_N].
    rewrite Pos2Z.inj_mul. rewrite Z2Pos.id by assumption. reflexivity. }
  rewrite E. unfold Num.of_decimal.
  change (Z.to_pos (10 ^ 0)) with 1%positive. rewrite Pos.mul_1_r.
  destruct (Z.of_nat j) eqn:J; try reflexivity. lia.
Qed.

Lemma length_digits_pos (s : N) : (0 < String.length (Num.digits s))%nat.
Proof.
  pose proof (digits_nonempty s). destruct (Num.digits s); cbn; [congruence|lia].
Qed.

(** What [format_decimal] writes, [unsigned_literal] reads back. *)
Lemma unsigned_literal_format (s : N) (n : Z) :
  Str.unsigned_literal (Num.format_decimal s n)
  = Some (Num.of_decimal s (Num.scale s n)).
Proof.
  unfold Num.format_decimal, Num.scale, Num.ndigits.
  pose proof (all_digits_digits s) as Hd.
  pose proof (digits_nonempty s) as Hne.
  pose proof (digits_value_digits s) as Hv.
  pose proof (length_digits_pos s) as Hk.
  set (ds := Num.digits s) in *. set (k := String.length ds) in *.
  destruct ((Z.of_nat k <=? n) && (n <=? 21)) eqn:C1.
  { apply andb_true_iff in C1 as [C1 _]. apply Z.leb_le in C1.
    rewrite <- (append_empty (ds ++ _)).
    rewrite unsigned_literal_integer; try exact I.
    - unfold Str.digits_value. rewrite digits_value_from_app.
      fold (Str.digits_value ds). rewrite Hv, digits_value_from_zeros.
      rewrite of_decimal_scaled. do 2 f_equal; lia.
    - now rewrite all_digits_app, Hd, all_digits_zeros.
    - destruct ds; [congruence|discriminate]. }
  destruct ((0 <? n) && (n <=? 21)) eqn:C2.
  { apply andb_true_iff in C2 as [C2 C2']. apply Z.ltb_lt in C2.
    rewrite C2', andb_true_r in C1. apply Z.leb_gt in C1.
    rewrite <- (append_empty (Num.drop _ ds)).
    rewrite unsigned_literal_fraction; try exact I.
    - rewrite take_drop, Hv, length_drop. fold k. cbn [Str.exponent_part].
      do 2 f_equal; lia.
    - now apply all_digits_take.
    - now apply all_digits_drop.
    - apply take_nonempty; [lia|assumption]. }
  destruct ((-6 <? n) && (n <=? 0)) eqn:C3.
  { apply andb_true_iff in C3 as [_ C3]. apply Z.leb_le in C3.
    replace ("0." ++ Num.zeros (Z.to_nat (- n)) ++ ds)
      with ("0" ++ "." ++ (Num.zeros (Z.to_nat (- n)) ++ ds) ++ "")
      by (now rewrite append_empty).
    rewrite unsigned_literal_fraction; try exact I; try reflexivity.
    - push_append. unfold Str.digits_value. cbn [Str.digits_value_from].
      rewrite digits_value_from_app, digits_value_from_zeros.
      change (10 * 0 + Str.digit_value "0")%N with 0%N. rewrite N.mul_0_l.
      fold (Str.digits_value ds). rewrite Hv.
      rewrite length_append, length_zeros. fold k. cbn [Str.exponent_part].
      do 2 f_equal; lia.
    - now rewrite all_digits_app, all_digits_zeros.
    - discriminate. }
  assert (He : Str.exponent_part
                 ("e" ++ (if n - 1 <? 0 then "-" else "+")
                  ++ Num.digits (Z.abs_N (n - 1))) = n - 1).
  { rewrite exponent_part_signed
      by (apply all_digits_digits || apply digits_nonempty).
    rewrite digits_value_digits, N2Z.inj_abs_N.
    destruct (n - 1 <? 0) eqn:S; [apply Z.ltb_lt in S|apply Z.ltb_ge in S]; lia. }
  destruct k as [|[|k']] eqn:K; [lia| |].
  - rewrite unsigned_literal_integer; [| assumption | assumption | reflexivity
                                       | discriminate ].
    rewrite Hv, He. do 2 f_equal; lia.
  - rewrite unsigned_literal_fraction; try reflexivity.
    + rewrite take_drop, Hv, He, length_drop. fold k. rewrite K.
      do 2 f_equal; lia.
    + now apply all_digits_take.
    + now apply all_digits_drop.
    + apply take_nonempty; [lia|assumption].
Qed.

(** *** The digits [Number::toString] chooses denote the number *)

Lemma eqb_eq (x y : Num.number) : Num.eqb x y = true -> x = y.
Proof.
  destruct x as [a|a| |a m e], y as [b|b| |b m' e']; cbn; try discriminate;
    try reflexivity.
  - intros H. apply Bool.eqb_prop in H. congruence.
  - intros H. apply Bool.eqb_prop in H. congruence.
  - intros H. apply andb_true_iff in H as [H He].
    apply andb_true_iff in H as [Hs Hm].
    apply Bool.eqb_prop in Hs. apply Pos.eqb_eq in Hm. apply Z.eqb_eq in He.
    congruence.
Qed.

Lemma eqb_refl (x : Num.number) : Num.eqb x x = true.
Proof.
  destruct x as [a|a| |a m e]; cbn; try reflexivity;
    rewrite ?Bool.eqb_reflx, ?Pos.eqb_refl, ?Z.eqb_refl; reflexivity.
Qed.

Lemma nearer_In (D : N) (E : Z) (best : option (N * Z)) (c b : N * Z) :
  Num.nearer D E best c = Some b -> b = c \/ best = Some b.
Proof.
  unfold Num.nearer. destruct best as [b0|]; [|intros [= <-]; now left].
  destruct (_ <? _); [intros [= <-]; now left|].
  destruct (_ && _); [intros [= <-]; now left|]. now right.
Qed.

Lemma closest_In (D : N) (E : Z) (cs : list (N * Z)) (c : N * Z) :
  Num.closest D E cs = Some c -> In c cs.
Proof.
  unfold Num.closest.
  assert (G : forall best,
             fold_left (Num.nearer D E) cs best = Some c ->
             In c cs \/ best = Some c).
  { induction cs as [|x cs IH]; intros best; cbn; [now right|].
    intros H. destruct (IH _ H) as [H'|H']; [now left; right|].
    apply nearer_In in H' as [->|H']; [now left; left|now right]. }
  intros H. destruct (G _ H) as [H'|H']; [assumption|discriminate].
Qed.

Lemma shortest_denotes (x : Num.number) (D : N) (E : Z) (L k fuel : nat) :
  Num.denotes x (D, Z.of_nat L + E) = true ->
  Num.denotes x (Num.shortest x D E L k fuel) = true.
Proof.
  intros H. revert k.
  induction fuel as [|fuel IH]; intros k; cbn [Num.shortest]; [assumption|].
  match goal with
  | |- context [Num.closest D E ?l] =>
      destruct (Num.closest D E l) as [c|] eqn:C; [|apply IH]
  end.
  apply closest_In, filter_In in C. tauto.
Qed.

Lemma to_string_pos_read (m : positive) (e : Z) :
  bounded Num.prec Num.emax m e = true ->
  Str.unsigned_literal (Num.to_string_pos m e) = Some (S754_finite false m e).
Proof.
  intros B. pose proof (of_decimal_exact m e B) as H.
  unfold Num.to_string_pos. destruct (Num.exact_decimal m e) as [D E].
  pose proof (shortest_denotes (S754_finite false m e) D E (Num.ndigits D) 1
                (Num.ndigits D)) as S.
  destruct (Num.shortest _ D E _ 1 _) as [s n].
  rewrite unsigned_literal_format. f_equal. apply eqb_eq.
  apply S. unfold Num.denotes, Num.scale. cbn [fst snd].
  replace (Z.of_nat (Num.ndigits D) + E - Z.of_nat (Num.ndigits D)) with E by lia.
  rewrite H. apply eqb_refl.
Qed.

(** *** [parseFloat] of what [Number::toString] writes *)

Lemma head_format_decimal (s : N) (n : Z) :
  exists c r, Num.format_decimal s n = String c r /\ Str.is_digit c = true.
Proof.
  unfold Num.format_decimal.
  pose proof (all_digits_digits s) as Hd.
  pose proof (digits_nonempty s) as Hne.
  destruct (Num.digits s) as [|c ds] eqn:E; [congruence|].
  cbn in Hd. apply andb_true_iff in Hd as [Hc _].
  destruct ((_ <=? n) && (n <=? 21)); [push_append; eauto|].
  destruct ((0 <? n) && (n <=? 21)) eqn:C2.
  { apply andb_true_iff in C2 as [C2 _]. apply Z.ltb_lt in C2.
    destruct (Z.to_nat n) eqn:N; [lia|].
    cbn [Num.take Num.drop]; push_append; eauto. }
  destruct ((-6 <? n) && (n <=? 0)); [push_append; eauto|].
  cbn [String.length].
  destruct (String.length ds); cbn [Num.take Num.drop]; push_append; eauto.
Qed.

Lemma trim_start_digit (c : ascii) (r : string) :
  Str.is_digit c = true -> Str.trim_start (String c r) = String c r.
Proof.
  intros H. destruct c as [[] [] [] [] [] [] [] []]; try discriminate H;
    cbn; destruct r as [|x [|y r]]; reflexivity.
Qed.

Lemma split_sign_digit (c : ascii) (r : string) :
  Str.is_digit c = true -> Str.split_sign (String c r) = (false, String c r).
Proof.
  intros H. destruct c as [[] [] [] [] [] [] [] []]; try discriminate H;
    reflexivity.
Qed.

Lemma trim_start_minus (r : string) :
  Str.trim_start (String "-" r) = String "-" r.
Proof. cbn. destruct r as [|x [|y r]]; reflexivity. Qed.

Lemma parse_float_literal (c : ascii) (r : string) (x : Num.number) :
  Str.is_digit c = true ->
  Str.unsigned_literal (String c r) = Some x ->
  Str.parse_float (String c r) = x
  /\ Str.parse_float (String "-" (String c r)) = Num.neg x.
Proof.
  intros Hc R. unfold Str.parse_float.
  rewrite trim_start_minus, trim_start_digit, split_sign_digit by assumption.
  cbn [Str.split_sign]. now rewrite R.
Qed.

(** [parseFloat] reads back every number but -0 from its string. *)
Lemma parse_float_to_string (x : Num.number) :
  valid x = true -> x <> S754_zero true ->
  Str.parse_float (Num.to_string x) = x.
Proof.
  intros Hx Hz. destruct x as [[]|[]| |sg m e]; try reflexivity; [congruence|].
  pose proof (to_string_pos_read m e Hx) as R.
  unfold Num.to_string. unfold Num.to_string_pos in *.
  destruct (Num.exact_decimal m e) as [D E].
  destruct (Num.shortest _ D E _ 1 _) as [s n].
  destruct (head_format_decimal s n) as (c & r & F & Hc).
  rewrite F in *.
  destruct (parse_float_literal c r _ Hc R) as [P N].
  destruct sg; push_append; assumption.
Qed.

(** [parseFloat] returns a binary64 number. *)
Lemma parse_float_valid (s : string) : valid (Str.parse_float s) = true.
Proof.
  unfold Str.parse_float. destruct (Str.split_sign _) as [sg r].
  assert (H : forall x, Str.unsigned_literal r = Some x -> valid x = true).
  { unfold Str.unsigned_literal. intros x.
    destruct (Str.starts_with _ _); [now intros [= <-]|].
    destruct (Str.span_digits r) as [int r1].
    destruct (match r1 with
              | String "."%char r' => Str.span_digits r'
              | _ => ("", r1)
              end) as [frac r2].
    destruct int, frac; try discriminate; intros [= <-];
      apply of_decimal_valid. }
  destruct (Str.unsigned_literal r) as [x|]; [|reflexivity].
  destruct sg; [rewrite valid_neg|]; now apply H.
Qed.

(** A price read back: [parseFloat(price) || 0] of a price that
    [parseFloat(...) || 0] gave is that price. *)
Lemma price_read_back (v : value) :
  let x := or_number (parseFloat v) Num.zero in
  or_number (parseFloat (Number x)) Num.zero = x.
Proof.
  cbv zeta. pose proof (parse_float_valid (to_string v)) as V.
  change (Str.parse_float (to_string v)) with (parseFloat v) in V.
  revert V. generalize (parseFloat v). intros x V.
  destruct x as [z|i| |sg m e].
  - destruct z; vm_compute; reflexivity.
  - destruct i; vm_compute; reflexivity.
  - vm_compute; reflexivity.
  - change (or_number (S754_finite sg m e) Num.zero) with (S754_finite sg m e).
    unfold parseFloat. cbn [to_string].
    rewrite parse_float_to_string; [reflexivity|exact V|discriminate].
Qed.

(** ** Construction *)

(** What the [Product] constructor returns: it never throws, and reads
    the clock and the random source once each. *)
Lemma Product_constructor_returns (d : gmap string value) (w : world) :
  exists i w',
    Product_constructor d w
    = (Returned (Base (get d "name")
                      (or_number (parseFloat (get d "price")) Num.zero) i),
       w').
Proof. unfold Product_constructor. run. cbn. eauto. Qed.

Lemma Product_constructor_world (d : gmap string value) (w : world) :
  snd (Product_constructor d w) = read_once w.
Proof. reflexivity. Qed.

Lemma built_in_create_world (c : creator) (d : gmap string value) (w : world) :
  built_in c ->
  exists p, creator_create c d w = (Returned p, read_once w).
Proof.
  intros [-> | [-> | ->]]; cbn; eauto.
Qed.

Lemma or_number_not_nan (x : Num.number) :
  Num.is_nan (or_number x Num.zero) = false.
Proof. now destruct x as [[]|[]| |[] m e]. Qed.

Lemma or_number_kept (x : Num.number) :
  Num.is_nan x = false -> Num.is_zero x = false -> or_number x Num.zero = x.
Proof. destruct x as [[]|[]| |[] m e]; cbn; congruence. Qed.

Lemma or_number_nan (x : Num.number) :
  Num.is_nan x = true -> or_number x Num.zero = Num.zero.
Proof. destruct x as [[]|[]| |[] m e]; cbn; congruence. Qed.

Lemma or_number_zero (x : Num.number) :
  Num.is_zero x = true -> or_number x Num.zero = Num.zero.
Proof. destruct x as [[]|[]| |[] m e]; cbn; congruence. Qed.

Lemma parseFloat_undefined : parseFloat Undefined = Num.nan.
Proof. vm_compute. reflexivity. Qed.

Lemma get_missing (d : gmap string value) (k : string) :
  d !! k = None -> get d k = Undefined.
Proof. unfold get. now intros ->. Qed.

Lemma get_present (d : gmap string value) (k : string) (v : value) :
  d !! k = Some v -> get d k = v.
Proof. unfold get. now intros ->. Qed.

Lemma price_coerced_base (d : gmap string value) (p : product) :
  price (base_of p) = or_number (parseFloat (get d "price")) Num.zero ->
  price_coerced d p.
Proof.
  intros E. unfold price_coerced. rewrite E. repeat split.
  - apply or_number_not_nan.
  - now destruct (parseFloat (get d "price")) as [[]|[]| |[] m e].
  - apply or_number_kept.
  - now destruct (parseFloat (get d "price")) as [[]|[]| |[] m e].
  - intros H. rewrite (get_missing _ _ H), parseFloat_undefined. reflexivity.
  - apply or_number_nan.
  - apply or_number_zero.
Qed.

Lemma constructors_price (new : gmap string value -> M world product)
    (d : gmap string value) (w : world) :
  In new constructors ->
  exists p w',
    new d w = (Returned p, w')
    /\ price (base_of p) = or_number (parseFloat (get d "price")) Num.zero.
Proof.
  intros H. destruct (Product_constructor_returns d w) as (i & w' & E).
  cbn in H.
  destruct H as [<- | [<- | [<- | [<- | []]]]];
    unfold new_Product, new_ElectronicsProduct, new_ClothingProduct,
      new_BookProduct, bind, ret; rewrite E; eauto.
Qed.

Lemma built_in_create_price (c : creator) (d : gmap string value) (w : world) :
  built_in c ->
  exists p w',
    creator_create c d w = (Returned p, w')
    /\ price (base_of p) = or_number (parseFloat (get d "price")) Num.zero.
Proof.
  intros [-> | [-> | ->]]; cbn -[new_ElectronicsProduct new_ClothingProduct
    new_BookProduct]; apply constructors_price; cbn; tauto.
Qed.

(** C1, as the code has it.  A product built from any raw record, by any
    constructor of the hierarchy and so by [ProductFactory.create] for a
    tag mapped to a built-in creator, has a price that is a number other
    than NaN and other than -0: [parseFloat] of the price field when that
    is a number other than zero, and 0 otherwise.  So the price is
    finite and not negative whenever the number [parseFloat] reads is,
    and it is 0 when the field is missing or [parseFloat] finds no
    number in it.  A negative or infinite price is kept. *)
Theorem price_after_construction (d : gmap string value) :
  (forall new w,
      In new constructors ->
      exists p w', new d w = (Returned p, w') /\ price_coerced d p)
  /\ (forall type c s,
         JsMap.get type (registry s) = Some c -> built_in c ->
         exists p s',
           ProductFactory.create type d s = (Returned p, s')
           /\ price_coerced d p).
Proof.
  split.
  - intros new w H. destruct (constructors_price new d w H) as (p & w' & E & P).
    exists p, w'. split; [assumption|]. now apply price_coerced_base.
  - intros type c s G B.
    destruct (built_in_create_price c d (env s) B) as (p & w' & E & P).
    exists p, (with_env w' s). split; [|now apply price_coerced_base].
    unfold ProductFactory.create. run. rewrite G. now rewrite E.
Qed.

(** The price field ["bad"] gives the price 0, by the book constructor
    and through the registry. *)
Lemma price_after_construction_witness :
  (exists p w',
      new_BookProduct {[ "price" := Str "bad" ]} Sample.still = (Returned p, w')
      /\ price_coerced {[ "price" := Str "bad" ]} p)
  /\ (exists p s',
         ProductFactory.create "book" {[ "price" := Str "bad" ]} Sample.page0
         = (Returned p, s')
         /\ price_coerced {[ "price" := Str "bad" ]} p).
Proof.
  split.
  - apply (proj1 (price_after_construction {[ "price" := Str "bad" ]})).
    cbn. tauto.
  - apply (proj2 (price_after_construction {[ "price" := Str "bad" ]})
             "book" BookCreator).
    + reflexivity.
    + right. right. reflexivity.
Defined.

(** C1 as stated fails: the price field ["-5"] gives a product whose
    price is -5, which is below zero, and ["Infinity"] one whose price is
    not finite. *)
Lemma negative_price_kept :
  (exists b brand warranty s',
      ProductFactory.create "electronics" {[ "price" := Str "-5" ]}
        Sample.page0
      = (Returned (ElectronicsProduct b brand warranty), s')
      /\ price b = Num.neg (Num.of_Z 5)
      /\ finite_nonnegative (price b) = false)
  /\ (exists b w',
         Product_constructor {[ "price" := Str "Infinity" ]} Sample.still
         = (Returned b, w')
         /\ price b = Num.infinity
         /\ finite_nonnegative (price b) = false).
Proof.
  split.
  - eexists _, _, _, _. split; [vm_compute; reflexivity|].
    split; vm_compute; reflexivity.
  - eexists _, _. split; [vm_compute; reflexivity|].
    split; vm_compute; reflexivity.
Qed.

(** ** The registry *)

Lemma create_mapped (type : string) (c : creator) (d : gmap string value)
    (s : page) :
  JsMap.get type (registry s) = Some c ->
  ProductFactory.create type d s = lift (creator_create c d) s.
Proof. intros G. unfold ProductFactory.create. run. now rewrite G. Qed.

Lemma create_unmapped (type : string) (d : gmap string value) (s : page) :
  JsMap.get type (registry s) = None ->
  ProductFactory.create type d s
  = (Thrown (ProductFactory.unregistered type), s).
Proof. intros G. unfold ProductFactory.create. run. now rewrite G. Qed.

(** C2.  For a tag the registry does not map and any raw record,
    [create] throws the error whose message is
    [No creator registered for type] followed by the tag in double
    quotes, and leaves the page as it was: the registry, the created
    products, the list, the form and the environment.  The create button
    then only shows that message in an alert. *)
Theorem create_unregistered_fails (type : string) (d : gmap string value)
    (s : page) :
  JsMap.get type (registry s) = None ->
  ProductFactory.create type d s
  = (Thrown (Error ("No creator registered for type " ++ Str.dq ++ type
                    ++ Str.dq)), s)
  /\ (productType (inputs s) = type ->
      UI.create_click s
      = (Returned tt,
         with_alerts
           (app (alerts s)
                (("No creator registered for type " ++ Str.dq ++ type
                  ++ Str.dq) :: nil)) s)).
Proof.
  intros G. split; [now apply create_unmapped|].
  intros <-. unfold UI.create_click, UI.try_alert.
  unfold bind at 1 2. unfold read at 1 2. cbn beta iota.
  unfold bind at 1. now rewrite create_unmapped.
Qed.

(** The tag ["unknown"] chosen in the form of the page as it starts. *)
Lemma create_unregistered_fails_witness :
  let s := with_inputs (Form "unknown" "Thing" "3" ∅) Sample.page0 in
  ProductFactory.create "unknown" ∅ s
  = (Thrown (Error ("No creator registered for type " ++ Str.dq ++ "unknown"
                    ++ Str.dq)), s)
  /\ UI.create_click s
     = (Returned tt,
        with_alerts
          (("No creator registered for type " ++ Str.dq ++ "unknown"
            ++ Str.dq) :: nil) s).
Proof.
  cbv zeta.
  destruct (create_unregistered_fails "unknown" ∅
              (with_inputs (Form "unknown" "Thing" "3" ∅) Sample.page0)
              eq_refl) as [H1 H2].
  split; [exact H1|]. apply H2. reflexivity.
Defined.

(** C3.  [register(t, c)] followed by [create(t, d)] returns what
    [c.create(d)] returns; [register] overwrites the creator of [t],
    keeps every other tag and one entry per tag; [unregister(t)]
    followed by [create(t, d)] throws the unregistered-type error; and
    [unregister(t)] of a tag that is not mapped leaves the page as it
    was. *)
Theorem register_then_create (t : string) (c : creator)
    (d : gmap string value) (s : page) :
  let s1 := snd (ProductFactory.register t c s) in
  let s2 := snd (ProductFactory.unregister t s) in
  ProductFactory.create t d s1 = lift (creator_create c d) s1
  /\ JsMap.get t (registry s1) = Some c
  /\ (forall t', t <> t' ->
        JsMap.get t' (registry s1) = JsMap.get t' (registry s))
  /\ (NoDup (JsMap.keys (registry s)) -> NoDup (JsMap.keys (registry s1)))
  /\ ProductFactory.create t d s2 = (Thrown (ProductFactory.unregistered t), s2)
  /\ (JsMap.get t (registry s) = None ->
      ProductFactory.unregister t s = (Returned tt, s)).
Proof.
  cbv zeta. unfold ProductFactory.register, ProductFactory.unregister, update.
  cbn [snd]. repeat split.
  - apply create_mapped. cbn. apply get_set_eq.
  - cbn. apply get_set_eq.
  - intros t' Hne. cbn. now apply get_set_ne.
  - cbn. apply NoDup_keys_set.
  - apply create_unmapped. cbn. apply get_delete_eq.
  - intros G. rewrite (delete_absent _ _ G). now rewrite with_registry_same.
Qed.

(** A creator registered as ["widget"], and ["widget"] unregistered
    where it is not mapped. *)
Lemma register_then_create_witness :
  ProductFactory.create "widget" Sample.dune
    (snd (ProductFactory.register "widget" BookCreator Sample.page0))
  = lift (creator_create BookCreator Sample.dune)
      (snd (ProductFactory.register "widget" BookCreator Sample.page0))
  /\ ProductFactory.unregister "widget" Sample.page0
     = (Returned tt, Sample.page0).
Proof.
  pose proof (register_then_create "widget" BookCreator Sample.dune
                Sample.page0) as H.
  cbv zeta in H. destruct H as (H1 & _ & _ & _ & _ & H6).
  split; [exact H1|]. apply H6. reflexivity.
Defined.

(** C4.  On a page whose registry is the one the script builds, for each
    of the tags ["electronics"], ["clothing"] and ["book"] and every raw
    record, [create] returns a product of the class of that tag, the one
    the [instanceof] tests of the clone listener map back to the tag, and
    [availableTypes()] lists the tag. *)
Theorem built_in_tags_create (type : string) (d : gmap string value)
    (s : page) :
  registry s = ProductFactory.initial ->
  In type ("electronics" :: "clothing" :: "book" :: nil) ->
  (exists p s',
      ProductFactory.create type d s = (Returned p, s')
      /\ UI.type_of p = Some type
      /\ match p with
         | ElectronicsProduct _ _ _ => type = "electronics"
         | ClothingProduct _ _ _ => type = "clothing"
         | BookProduct _ _ _ => type = "book"
         | Product _ => False
         end)
  /\ exists l, ProductFactory.availableTypes s = (Returned l, s) /\ In type l.
Proof.
  intros R H. split.
  - destruct (Product_constructor_returns d (env s)) as (i & w' & E).
    destruct H as [<- | [<- | [<- | []]]];
      (erewrite create_mapped by (rewrite R; reflexivity));
      unfold lift, creator_create, factoryMethod, new_ElectronicsProduct,
        new_ClothingProduct, new_BookProduct, bind, ret; rewrite E;
      eexists _, _; (split; [reflexivity|]); split; reflexivity.
  - unfold ProductFactory.availableTypes, read. rewrite R.
    eexists. split; [reflexivity|]. cbn. cbn in H. tauto.
Qed.

(** The tag ["clothing"] on the page as it starts. *)
Lemma built_in_tags_create_witness :
  (exists p s',
      ProductFactory.create "clothing" Sample.fan Sample.page0
      = (Returned p, s')
      /\ UI.type_of p = Some "clothing"
      /\ match p with
         | ElectronicsProduct _ _ _ => "clothing" = "electronics"
         | ClothingProduct _ _ _ => "clothing" = "clothing"
         | BookProduct _ _ _ => "clothing" = "book"
         | Product _ => False
         end)
  /\ exists l,
      ProductFactory.availableTypes Sample.page0 = (Returned l, Sample.page0)
      /\ In "clothing" l.
Proof.
  apply (built_in_tags_create "clothing" Sample.fan Sample.page0).
  - reflexivity.
  - cbn. tauto.
Defined.

(** ** The built-in products *)

Lemma parseFloat_12_5 : parseFloat (Str "12.5") = Num.of_decimal 125 (-1).
Proof. vm_compute. reflexivity. Qed.

Lemma parseFloat_bad : parseFloat (Str "bad") = Num.nan.
Proof. vm_compute. reflexivity. Qed.

(** C6.  [create("book", {name:"Dune", price:"12.5", author:"Herbert",
    pages:412})] returns a book whose price is 12.5 and whose
    [describe()] is the name in double quotes, [by Herbert], [412 pages]
    and the price as [12.50] after the rupee sign, joined by dashes. *)
Theorem dune_described (w : world) (f : form) :
  exists b s',
    ProductFactory.create "book" Sample.dune (startup w f)
    = (Returned (BookProduct b (Str "Herbert") (Number (Num.of_Z 412))), s')
    /\ name b = Str "Dune"
    /\ price b = Num.of_decimal 125 (-1)
    /\ Num.to_string (price b) = "12.5"
    /\ describe (BookProduct b (Str "Herbert") (Number (Num.of_Z 412)))
       = Str.dq ++ "Dune" ++ Str.dq ++ " by Herbert — 412 pages — ₹12.50".
Proof.
  destruct (Product_constructor_returns Sample.dune w) as (i & w' & E).
  rewrite (create_mapped "book" BookCreator) by reflexivity.
  unfold lift, creator_create, factoryMethod, new_BookProduct, bind, ret.
  change (env (startup w f)) with w. rewrite E.
  change (get Sample.dune "name") with (Str "Dune").
  change (get Sample.dune "price") with (Str "12.5").
  change (get Sample.dune "author") with (Str "Herbert").
  change (get Sample.dune "pages") with (Number (Num.of_Z 412)).
  rewrite parseFloat_12_5.
  eexists _, _. split; [reflexivity|]. cbn [name price].
  repeat split; vm_compute; reflexivity.
Qed.

(** C7, as the code has it.  The electronics product built from a raw
    record has the brand of the record when that is a string other than
    the empty one, and ["Unknown"] when the record has none; its
    [warrantyYears] is the value of the record whenever that value is
    truthy (a number other than 0 and NaN among them), whether or not it
    is a non-negative integer, and 1 when the record has none.
    [create("electronics", {name:"Fan", price:"bad", brand:"Acme"})]
    has price 0, brand ["Acme"] and 1 year of warranty. *)
Theorem electronics_fields (d : gmap string value) (w : world) :
  (exists b brand warranty w',
      new_ElectronicsProduct d w
      = (Returned (ElectronicsProduct b brand warranty), w')
      /\ (d !! "brand" = None -> brand = Str "Unknown")
      /\ (forall s, d !! "brand" = Some (Str s) -> s <> "" -> brand = Str s)
      /\ (d !! "warrantyYears" = None -> warranty = Number (Num.of_Z 1))
      /\ (forall v, d !! "warrantyYears" = Some v -> truthy v = true ->
                    warranty = v))
  /\ (forall f, exists b s',
        ProductFactory.create "electronics" Sample.fan (startup w f)
        = (Returned (ElectronicsProduct b (Str "Acme") (Number (Num.of_Z 1))),
           s')
        /\ price b = Num.zero).
Proof.
  split.
  - destruct (Product_constructor_returns d w) as (i & w' & E).
    unfold new_ElectronicsProduct, bind, ret. rewrite E.
    eexists _, _, _, _. split; [reflexivity|]. repeat split.
    + intros H. now rewrite (get_missing _ _ H).
    + intros s H Hs. rewrite (get_present _ _ _ H). unfold or. cbn.
      apply String.eqb_neq in Hs. now rewrite Hs.
    + intros H. now rewrite (get_missing _ _ H).
    + intros v H Hv. rewrite (get_present _ _ _ H). unfold or. now rewrite Hv.
  - intros f. destruct (Product_constructor_returns Sample.fan w) as (i & w' & E).
    rewrite (create_mapped "electronics" ElectronicsCreator) by reflexivity.
    unfold lift, creator_create, factoryMethod, new_ElectronicsProduct, bind,
      ret.
    change (env (startup w f)) with w. rewrite E.
    change (get Sample.fan "price") with (Str "bad").
    change (get Sample.fan "brand") with (Str "Acme").
    change (get Sample.fan "warrantyYears") with Undefined.
    rewrite parseFloat_bad.
    eexists _, _. split; reflexivity.
Qed.

(** A record with the brand ["Acme"] and 3 years of warranty. *)
Lemma electronics_fields_witness :
  exists b brand warranty w',
    new_ElectronicsProduct
      {[ "brand" := Str "Acme"; "warrantyYears" := Number (Num.of_Z 3) ]}
      Sample.still
    = (Returned (ElectronicsProduct b brand warranty), w')
    /\ brand = Str "Acme" /\ warranty = Number (Num.of_Z 3).
Proof.
  destruct (proj1 (electronics_fields
              {[ "brand" := Str "Acme"; "warrantyYears" := Number (Num.of_Z 3) ]}
              Sample.still))
    as (b & brand & warranty & w' & E & _ & Hb & _ & Hw).
  exists b, brand, warranty, w'. split; [exact E|]. split.
  - apply Hb; [reflexivity|discriminate].
  - apply Hw; reflexivity.
Defined.

(** C7 as stated fails: a warranty of -3 years is kept as it is, and is
    not a non-negative integer; so is the string ["soon"]. *)
Lemma negative_warranty_kept :
  (exists b brand s',
      ProductFactory.create "electronics"
        {[ "warrantyYears" := Number (Num.of_Z (-3)) ]} Sample.page0
      = (Returned (ElectronicsProduct b brand (Number (Num.of_Z (-3)))), s')
      /\ Num.is_negative (Num.of_Z (-3)) = true)
  /\ (exists b brand s',
         ProductFactory.create "electronics"
           {[ "warrantyYears" := Str "soon" ]} Sample.page0
         = (Returned (ElectronicsProduct b brand (Str "soon")), s')).
Proof.
  split.
  - eexists _, _, _. split; vm_compute; reflexivity.
  - eexists _, _, _. vm_compute; reflexivity.
Qed.

(** C8, as the code has it.  The clothing product built from a raw
    record has the size of the record whenever that value is truthy, so
    one of S, M, L, XL when the record has one of these, and ["M"] when
    the record has none; its material is the one of the record when that
    is a string other than the empty one, and ["Unknown"] when the
    record has none. *)
Theorem clothing_fields (d : gmap string value) (w : world) :
  exists b size material w',
    new_ClothingProduct d w
    = (Returned (ClothingProduct b size material), w')
    /\ (d !! "size" = None -> size = Str "M")
    /\ (forall v, d !! "size" = Some v -> truthy v = true -> size = v)
    /\ (d !! "size" = None \/ (exists v, d !! "size" = Some v /\ In v sizes) ->
        In size sizes)
    /\ (d !! "material" = None -> material = Str "Unknown")
    /\ (forall s, d !! "material" = Some (Str s) -> s <> "" ->
                  material = Str s).
Proof.
  destruct (Product_constructor_returns d w) as (i & w' & E).
  unfold new_ClothingProduct, bind, ret. rewrite E.
  eexists _, _, _, _. split; [reflexivity|]. repeat split.
  - intros H. now rewrite (get_missing _ _ H).
  - intros v H Hv. rewrite (get_present _ _ _ H). unfold or. now rewrite Hv.
  - intros [H|(v & H & Hv)].
    + rewrite (get_missing _ _ H). cbn. tauto.
    + rewrite (get_present _ _ _ H). cbn in Hv.
      destruct Hv as [<- | [<- | [<- | [<- | []]]]]; cbn; tauto.
  - intros H. now rewrite (get_missing _ _ H).
  - intros s H Hs. rewrite (get_present _ _ _ H). unfold or. cbn.
    apply String.eqb_neq in Hs. now rewrite Hs.
Qed.

(** A record with the size ["XL"] and no material. *)
Lemma clothing_fields_witness :
  exists b size material w',
    new_ClothingProduct {[ "size" := Str "XL" ]} Sample.still
    = (Returned (ClothingProduct b size material), w')
    /\ size = Str "XL" /\ In size sizes /\ material = Str "Unknown".
Proof.
  destruct (clothing_fields {[ "size" := Str "XL" ]} Sample.still)
    as (b & size & material & w' & E & _ & Hs & Hin & Hm & _).
  exists b, size, material, w'. split; [exact E|]. repeat split.
  - apply Hs; reflexivity.
  - apply Hin. right. exists (Str "XL"). split; [reflexivity|]. cbn. tauto.
  - apply Hm. reflexivity.
Defined.

(** C8 as stated fails: the size ["XXL"] is kept, and is none of S, M, L,
    XL. *)
Lemma unlisted_size_kept :
  exists b material s',
    ProductFactory.create "clothing" {[ "size" := Str "XXL" ]} Sample.page0
    = (Returned (ClothingProduct b (Str "XXL") material), s')
    /\ ~ In (Str "XXL") sizes.
Proof.
  eexists _, _, _. split; [vm_compute; reflexivity|].
  cbn. intros [H|[H|[H|[H|[]]]]]; discriminate.
Qed.

(** ** The base creation step *)

Lemma unregistered_not_must_override (type : string) :
  ProductFactory.unregistered type <> must_override.
Proof. discriminate. Qed.

Lemma concrete_create (c : creator) (d : gmap string value) (w : world) :
  concrete c -> fst (creator_create c d w) <> Thrown must_override.
Proof.
  destruct (Product_constructor_returns d w) as (i & w' & E).
  destruct c; cbn -[Product_constructor]; try tauto;
    try (intros _; unfold new_ElectronicsProduct, new_ClothingProduct,
           new_BookProduct, bind, ret; rewrite E; discriminate).
  intros H. apply H.
Qed.

(** C9.  [create] of a bare [ProductCreator], like its [factoryMethod],
    throws the error [factoryMethod() must be implemented by subclasses]
    and changes nothing; and when every tag of the registry maps to a
    creator that overrides [factoryMethod], [ProductFactory.create]
    throws that error for no tag and no record. *)
Theorem must_override_unreachable :
  (forall d w,
      creator_create ProductCreator d w
      = (Thrown (Error "factoryMethod() must be implemented by subclasses"), w)
      /\ factoryMethod ProductCreator d w
         = (Thrown (Error "factoryMethod() must be implemented by subclasses"),
            w))
  /\ (forall s,
         (forall t c, JsMap.get t (registry s) = Some c -> concrete c) ->
         forall type d,
           fst (ProductFactory.create type d s) <> Thrown must_override).
Proof.
  split; [intros d w; split; reflexivity|].
  intros s H type d. destruct (JsMap.get type (registry s)) as [c|] eqn:G.
  - rewrite (create_mapped _ _ _ _ G). unfold lift.
    pose proof (concrete_create c d (env s) (H _ _ G)) as Hc.
    destruct (creator_create c d (env s)) as [o w']. exact Hc.
  - rewrite (create_unmapped _ _ _ G). cbn. discriminate.
Qed.

(** The page as it starts maps every tag to a concrete creator, and
    [create("book", ...)] on it returns a product. *)
Lemma must_override_unreachable_witness :
  (forall t c, JsMap.get t (registry Sample.page0) = Some c -> concrete c)
  /\ exists o,
      fst (ProductFactory.create "book" Sample.dune Sample.page0) = o
      /\ o <> Thrown must_override.
Proof.
  assert (H : forall t c,
             JsMap.get t (registry Sample.page0) = Some c -> concrete c).
  { intros t c. change (registry Sample.page0) with ProductFactory.initial.
    cbn. repeat (destruct (String.eqb t _); [intros [= <-]; exact I|]).
    discriminate. }
  split; [exact H|]. eexists. split; [reflexivity|].
  exact (proj2 must_override_unreachable Sample.page0 H "book" Sample.dune).
Defined.

(** ** The page as it starts *)

(** C10.  When the script has run, the registry maps the three tags
    ["electronics"], ["clothing"] and ["book"], which [availableTypes()]
    returns in that order, each to its own creator; [create] returns a
    bare [Product] for no tag, and [create("generic", data)] throws the
    unregistered-type error for every record. *)
Theorem startup_registry (w : world) (f : form) :
  let s := startup w f in
  registry s
  = ("electronics", ElectronicsCreator) :: ("clothing", ClothingCreator)
    :: ("book", BookCreator) :: nil
  /\ ProductFactory.availableTypes s
     = (Returned ("electronics" :: "clothing" :: "book" :: nil), s)
  /\ (forall type d,
        match fst (ProductFactory.create type d s) with
        | Returned (Product _) => False
        | _ => True
        end)
  /\ (forall d,
        ProductFactory.create "generic" d s
        = (Thrown (Error ("No creator registered for type " ++ Str.dq
                          ++ "generic" ++ Str.dq)), s)).
Proof.
  cbv zeta. split; [reflexivity|]. split; [reflexivity|]. split.
  - intros type d.
    destruct (Product_constructor_returns d w) as (i & w' & E).
    destruct (JsMap.get type (registry (startup w f))) as [c|] eqn:G.
    + rewrite (create_mapped _ _ _ _ G). unfold lift.
      change (env (startup w f)) with w.
      change (registry (startup w f)) with ProductFactory.initial in G.
      cbn in G.
      repeat (destruct (String.eqb type _);
              [injection G as <-;
               unfold creator_create, factoryMethod, new_ElectronicsProduct,
                 new_ClothingProduct, new_BookProduct, bind, ret;
               rewrite E; exact I|]).
      discriminate.
    + now rewrite (create_unmapped _ _ _ G).
  - intros d. now apply create_unmapped.
Qed.

(** ** Identifiers *)

Lemma plain_app (a b : string) : plain (a ++ b) = plain a && plain b.
Proof.
  induction a as [|c a IH]; push_append; cbn; [reflexivity|].
  now rewrite IH, andb_assoc.
Qed.

Lemma all_digits_plain (s : string) : all_digits s = true -> plain s = true.
Proof.
  induction s as [|c s IH]; cbn; [reflexivity|].
  intros H. apply andb_true_iff in H as [Hc Hs]. rewrite (IH Hs), andb_true_r.
  destruct (Ascii.eqb_spec c "_") as [->|]; [discriminate|reflexivity].
Qed.

Lemma plain_digits (n : N) : plain (Num.digits n) = true.
Proof. apply all_digits_plain, all_digits_digits. Qed.

Lemma plain_zeros (j : nat) : plain (Num.zeros j) = true.
Proof. apply all_digits_plain, all_digits_zeros. Qed.

Lemma plain_format_decimal (s : N) (n : Z) :
  plain (Num.format_decimal s n) = true.
Proof.
  unfold Num.format_decimal.
  pose proof (all_digits_digits s) as Hd.
  assert (T : forall i, plain (Num.take i (Num.digits s)) = true)
    by (intros i; now apply all_digits_plain, all_digits_take).
  assert (R : forall i, plain (Num.drop i (Num.digits s)) = true)
    by (intros i; now apply all_digits_plain, all_digits_drop).
  assert (Sg : plain (if n - 1 <? 0 then "-" else "+") = true)
    by now destruct (n - 1 <? 0).
  destruct (_ && _); [now rewrite plain_app, plain_digits, plain_zeros|].
  destruct (_ && _); [now rewrite !plain_app, T, R|].
  destruct (_ && _); [now rewrite !plain_app, plain_zeros, plain_digits|].
  destruct (String.length _) as [|[|k]];
    rewrite !plain_app, ?T, ?R, ?plain_digits, ?Sg; reflexivity.
Qed.

Lemma plain_to_string (x : Num.number) : plain (Num.to_string x) = true.
Proof.
  destruct x as [z|[]| |sg m e]; try reflexivity.
  unfold Num.to_string, Num.to_string_pos.
  destruct (Num.exact_decimal m e) as [D E].
  destruct (Num.shortest _ D E _ 1 _) as [s n].
  rewrite plain_app, plain_format_decimal. now destruct sg.
Qed.

(** Two strings without underscore, each followed by an underscore and
    more: equal wholes have equal parts. *)
Lemma split_underscore (a a' b b' : string) :
  plain a = true -> plain a' = true ->
  a ++ "_" ++ b = a' ++ "_" ++ b' -> a = a' /\ b = b'.
Proof.
  revert a'. induction a as [|c a IH]; intros [|c' a'] Ha Ha';
    push_append; intros E.
  - injection E as ->. auto.
  - injection E as <- _. cbn in Ha'. discriminate.
  - injection E as -> _. cbn in Ha. discriminate.
  - injection E as -> E. cbn in Ha, Ha'.
    apply andb_true_iff in Ha as [_ Ha]. apply andb_true_iff in Ha' as [_ Ha'].
    destruct (IH a' Ha Ha' E) as [-> ->]. auto.
Qed.

(** [Number::toString] tells the numbers apart, -0 and 0 excepted. *)
Lemma to_string_inj (x y : Num.number) :
  valid x = true -> valid y = true ->
  x <> S754_zero true -> y <> S754_zero true ->
  Num.to_string x = Num.to_string y -> x = y.
Proof.
  intros Vx Vy Zx Zy E.
  rewrite <- (parse_float_to_string x Vx Zx), <- (parse_float_to_string y Vy Zy).
  now rewrite E.
Qed.

(** The Number value of a safe integer that is not negative. *)
Lemma of_Z_safe (p : positive) :
  Z.pos p < 2 ^ 53 ->
  Num.of_Z (Z.pos p)
  = S754_finite false
      (Z.to_pos (Z.pos p * 2 ^ (53 - Zdigits2 (Z.pos p))))
      (Zdigits2 (Z.pos p) - 53).
Proof.
  intros H. set (d := Zdigits2 (Z.pos p)).
  assert (Hd : 0 < d <= 53).
  { split; [apply Zdigits2_pos; lia|]. apply Zdigits2_le; lia. }
  assert (P2 : 0 < 2 ^ (53 - d)) by (apply Z.pow_pos_nonneg; lia).
  assert (B : bounded Num.prec Num.emax
                (Z.to_pos (Z.pos p * 2 ^ (53 - d))) (d - 53) = true).
  { unfold bounded, canonical_mantissa. rewrite fexp_64.
    change (Z.pos (digits2_pos ?m)) with (Zdigits2 (Z.pos m)).
    rewrite Z2Pos.id by lia. rewrite Zdigits2_shift by lia. fold d.
    apply andb_true_iff. split; [apply Z.eqb_eq|apply Z.leb_le].
    - unfold fexp64. lia.
    - unfold Num.emax, Num.prec. lia. }
  pose proof (binary_round_aux_exact _ _ 0 B ltac:(lia)) as X.
  rewrite Z2Pos.id, Z.mul_1_r, Z.sub_0_r in X by lia.
  unfold Num.of_Z, binary_normalize, binary_round, shl_align.
  rewrite fexp_64. change (Z.pos (digits2_pos p)) with d.
  rewrite Z.add_0_r.
  assert (F : fexp64 d = d - 53) by (unfold fexp64; lia). rewrite F.
  destruct (d - 53 - 0) as [|q|q] eqn:Q; try lia.
  - replace (53 - d) with 0 in X by lia. rewrite Z.mul_1_r in X.
    replace (d - 53) with 0 in X by lia.
    replace (53 - d) with 0 by lia. replace (d - 53) with 0 by lia.
    rewrite Z.mul_1_r. cbn [Z.to_pos]. exact X.
  - rewrite pos_iter_xO. replace (Z.pos q) with (53 - d) by lia. exact X.
Qed.

Lemma of_Z_inj (z z' : Z) :
  0 <= z < 2 ^ 53 -> 0 <= z' < 2 ^ 53 -> Num.of_Z z = Num.of_Z z' -> z = z'.
Proof.
  intros Hz Hz'. destruct z as [|p|p], z' as [|p'|p']; try lia;
    try reflexivity.
  - rewrite (of_Z_safe p') by lia. discriminate.
  - rewrite (of_Z_safe p) by lia. discriminate.
  - rewrite (of_Z_safe p), (of_Z_safe p') by lia. intros [= M E].
    change (Z.pos (digits2_pos p)) with (Zdigits2 (Z.pos p)) in *.
    change (Z.pos (digits2_pos p')) with (Zdigits2 (Z.pos p')) in *.
    assert (D : Zdigits2 (Z.pos p) = Zdigits2 (Z.pos p')) by lia.
    rewrite D in M.
    assert (P2 : 0 < 2 ^ (53 - Zdigits2 (Z.pos p'))).
    { apply Z.pow_pos_nonneg; [lia|].
      pose proof (Zdigits2_le (Z.pos p') 53 ltac:(lia) ltac:(lia)). lia. }
    apply Z2Pos.inj in M; nia.
Qed.

Lemma of_Z_valid (z : Z) : valid (Num.of_Z z) = true.
Proof. destruct z; [reflexivity| |]; apply binary_round_valid. Qed.

Lemma of_Z_not_negative_zero (z : Z) :
  0 <= z < 2 ^ 53 -> Num.of_Z z <> S754_zero true.
Proof.
  intros H. destruct z as [|p|p]; try lia; [discriminate|].
  rewrite of_Z_safe by lia. discriminate.
Qed.

(** The identifier the constructor makes starts with the clock reading. *)
Lemma Product_constructor_id (d : gmap string value) (w w' : world) (b : base) :
  Product_constructor d w = (Returned b, w') ->
  exists r,
    id b = "p_" ++ Num.to_string (Num.of_Z (date_now w (now_calls w)))
           ++ "_" ++ Num.to_string r.
Proof.
  unfold Product_constructor, Date_now, Math_random. run.
  intros [= <- _]. cbn [id]. eauto.
Qed.

(** Two products built at different readings of the clock have different
    identifiers. *)
Lemma identifiers_differ (d d' : gmap string value) (w w1 w' w1' : world)
    (b b' : base) :
  Product_constructor d w = (Returned b, w1) ->
  Product_constructor d' w' = (Returned b', w1') ->
  0 <= date_now w (now_calls w) < 2 ^ 53 ->
  0 <= date_now w' (now_calls w') < 2 ^ 53 ->
  date_now w (now_calls w) <> date_now w' (now_calls w') ->
  id b <> id b'.
Proof.
  intros E E' H H' N.
  destruct (Product_constructor_id _ _ _ _ E) as (r & ->).
  destruct (Product_constructor_id _ _ _ _ E') as (r' & ->).
  push_append. intros [= I]. apply N.
  apply split_underscore in I as [I _]; try apply plain_to_string.
  apply to_string_inj in I;
    try apply of_Z_valid; try now apply of_Z_not_negative_zero.
  now apply of_Z_inj.
Qed.

(** ** Cloning *)

Lemma cloneData_name (p : product) :
  get (UI.cloneData p) "name"
  = Str (to_string (name (base_of p)) ++ " (clone)").
Proof. unfold UI.cloneData, assign, get. now rewrite lookup_union_l'. Qed.

Lemma cloneData_price (p : product) :
  get (UI.cloneData p) "price" = Number (price (base_of p)).
Proof.
  unfold UI.cloneData, assign, get.
  rewrite lookup_union_l'; [reflexivity|].
  rewrite lookup_insert_ne by discriminate. rewrite lookup_singleton_eq. eauto.
Qed.

Lemma cloneData_meta (p : product) (k : string) :
  k <> "name" -> k <> "price" ->
  get (UI.cloneData p) k = get (meta p) k.
Proof.
  intros H1 H2. unfold UI.cloneData, assign, get.
  rewrite lookup_union_r; [reflexivity|].
  rewrite lookup_insert_ne by congruence.
  apply lookup_singleton_ne. congruence.
Qed.

Lemma or_again (a b b' : value) : b = b' -> or (or a b) b' = or a b.
Proof.
  intros <-. unfold or. destruct (truthy a) eqn:A; [now rewrite A|].
  now destruct (truthy b).
Qed.

Lemma get_pair_first (k k' : string) (x y : value) :
  get {[ k := x; k' := y ]} k = x.
Proof. unfold get. now rewrite lookup_insert_eq. Qed.

Lemma get_pair_second (k k' : string) (x y : value) :
  k <> k' -> get {[ k := x; k' := y ]} k' = y.
Proof.
  intros H. unfold get. rewrite lookup_insert_ne by assumption.
  now rewrite lookup_singleton_eq.
Qed.

(** What [addProductToUI] does: the item is appended whether or not the
    buttons are found in it. *)
Lemma addProductToUI_run (p : product) (s : page) :
  UI.addProductToUI p s
  = (if buttons_found (env s) p then Returned (nodes s)
     else Thrown (null_button (env s) p),
     with_productList
       (productList s ++ Li (nodes s) (pid p) (UI.item_markup p) :: nil)%list
       (S (nodes s)) s).
Proof.
  unfold UI.addProductToUI, buttons_found, null_button.
  now destruct (query_selector _ _ ".remove"), (query_selector _ _ ".clone").
Qed.

Lemma clone_click_returned (p q : product) (t : string) (s s1 : page) :
  UI.type_of p = Some t ->
  ProductFactory.create t (UI.cloneData p) s = (Returned q, s1) ->
  UI.clone_click p s = cloned q (env s1) s1.
Proof.
  intros T E. unfold UI.clone_click. rewrite T. unfold bind at 1. rewrite E.
  unfold bind at 1. unfold update at 1. unfold bind.
  rewrite addProductToUI_run. unfold cloned, ret. cbn [env with_created].
  now destruct (buttons_found (env s1) q).
Qed.

Lemma clone_click_thrown (p : product) (t : string) (e : error) (s s' : page) :
  UI.type_of p = Some t ->
  ProductFactory.create t (UI.cloneData p) s = (Thrown e, s') ->
  UI.clone_click p s = (Thrown e, s').
Proof.
  intros T E. unfold UI.clone_click. rewrite T. unfold bind at 1.
  now rewrite E.
Qed.

(** What [create] makes of the record the clone listener builds: on a
    page with the registry of the script, for a constructed product, a
    new product of the same class with the same [meta()] fields, the
    name followed by [ (clone)] and the same price, which [parseFloat]
    reads back from the decimal string of the price of the original. *)
Lemma create_clone_data (p : product) (s : page) :
  constructed p ->
  registry s = ProductFactory.initial ->
  exists t q,
    UI.type_of p = Some t
    /\ ProductFactory.create t (UI.cloneData p) s
       = (Returned q, with_env (read_once (env s)) s)
    /\ UI.type_of q = UI.type_of p
    /\ meta q = meta p
    /\ name (base_of q) = Str (to_string (name (base_of p)) ++ " (clone)")
    /\ price (base_of q) = price (base_of p)
    /\ Product_constructor (UI.cloneData p) (env s)
       = (Returned (base_of q), read_once (env s)).
Proof.
  intros (c & d & w & w' & B & E) R.
  destruct (Product_constructor_returns d w) as (i & w1 & E1).
  destruct (Product_constructor_returns (UI.cloneData p) (env s))
    as (j & w2 & E2).
  pose proof (Product_constructor_world (UI.cloneData p) (env s)) as W.
  rewrite E2 in W. cbn [snd] in W. subst w2.
  destruct B as [-> | [-> | ->]];
    unfold creator_create, factoryMethod, new_ElectronicsProduct,
      new_ClothingProduct, new_BookProduct, bind, ret in E;
    rewrite E1 in E; injection E as <- <-;
    cbn [UI.type_of]; eexists _, _; (split; [reflexivity|]);
    (erewrite create_mapped by (rewrite R; reflexivity));
    unfold lift, creator_create, factoryMethod, new_ElectronicsProduct,
      new_ClothingProduct, new_BookProduct;
    unfold bind at 1; rewrite E2; unfold ret at 1;
    rewrite cloneData_name, cloneData_price in E2 |- *;
    rewrite !cloneData_meta by discriminate;
    cbn [meta]; rewrite get_pair_first, get_pair_second by discriminate;
    rewrite !or_again by reflexivity;
    cbn [base_of price] in E2 |- *;
    rewrite (price_read_back (get d "price")) in E2 |- *;
    (split; [reflexivity|]); cbn; auto 10.
Qed.

(** What the clone listener keeps: on a page with the registry of the
    script, the clone of a constructed product is a new product of the
    same class with the same [meta()] fields, the name followed by
    [ (clone)] and the same price; it is appended to [created] and to
    the list, and the listener returns it when the browser finds the
    buttons of its item. *)
Lemma clone_of_constructed (p : product) (s : page) :
  constructed p ->
  registry s = ProductFactory.initial ->
  exists q,
    UI.clone_click p s = cloned q (read_once (env s)) s
    /\ UI.type_of q = UI.type_of p
    /\ meta q = meta p
    /\ name (base_of q) = Str (to_string (name (base_of p)) ++ " (clone)")
    /\ price (base_of q) = price (base_of p)
    /\ Product_constructor (UI.cloneData p) (env s)
       = (Returned (base_of q), read_once (env s)).
Proof.
  intros C R.
  destruct (create_clone_data p s C R) as (t & q & T & E & H).
  exists q. split; [|exact H].
  exact (clone_click_returned p q t s _ T E).
Qed.

Lemma built_in_create_base (c : creator) (d : gmap string value)
    (w w' : world) (p : product) :
  built_in c ->
  creator_create c d w = (Returned p, w') ->
  Product_constructor d w = (Returned (base_of p), w').
Proof.
  intros B. destruct (Product_constructor_returns d w) as (i & w1 & E).
  destruct B as [-> | [-> | ->]];
    unfold creator_create, factoryMethod, new_ElectronicsProduct,
      new_ClothingProduct, new_BookProduct, bind, ret;
    rewrite E; now intros [= <- <-].
Qed.

(** X12.  The clone of a product built at another reading of the clock has
    another identifier: the product the clone listener adds to [created]
    differs in its identifier from the original, whether or not the
    browser then finds the buttons of its item. *)
Lemma clone_identifier (c : creator) (d : gmap string value) (w w' : world)
    (p : product) (s : page) :
  built_in c ->
  creator_create c d w = (Returned p, w') ->
  registry s = ProductFactory.initial ->
  0 <= date_now w (now_calls w) < 2 ^ 53 ->
  0 <= date_now (env s) (now_calls (env s)) < 2 ^ 53 ->
  date_now w (now_calls w) <> date_now (env s) (now_calls (env s)) ->
  exists q,
    created (snd (UI.clone_click p s)) = (created s ++ q :: nil)%list
    /\ id (base_of q) <> id (base_of p).
Proof.
  intros B E R H H' N.
  destruct (create_clone_data p s) as (t & q & T & C & _ & _ & _ & _ & E2);
    [now exists c, d, w, w'|assumption|].
  exists q. split.
  - now rewrite (clone_click_returned p q t s _ T C).
  - pose proof (built_in_create_base c d w w' p B E) as E1.
    intros I. symmetry in I. revert I.
    now apply (identifiers_differ d (UI.cloneData p) w w' (env s)
                 (read_once (env s))).
Qed.

(** C5 on a clock that stands still.  The create button makes the book
    of the filled form, with the identifier [p_1700000000000_500]; the
    clone listener of that book then makes a book with the same author,
    pages and price and the name [Dune (clone)], and with the same
    identifier [p_1700000000000_500]: the clock reads the same
    millisecond and the second random draw falls in the same thousandth.
    Removing the clone then takes the original out of [created] and the
    item of the clone out of the list. *)
Theorem clone_same_identifier :
  let s := with_inputs Sample.dune_form Sample.page0 in
  exists p q s1 s2 s3,
    UI.create_click s = (Returned tt, s1)
    /\ created s1 = p :: nil
    /\ UI.clone_click p s1 = (Returned (Some q), s2)
    /\ created s2 = p :: q :: nil
    /\ p = BookProduct (Base (Str "Dune") (Num.of_decimal 125 (-1))
                          "p_1700000000000_500")
             (Str "Herbert") (Number (Num.of_Z 412))
    /\ q = BookProduct (Base (Str "Dune (clone)") (Num.of_decimal 125 (-1))
                          "p_1700000000000_500")
             (Str "Herbert") (Number (Num.of_Z 412))
    /\ id (base_of q) = id (base_of p)
    /\ map li_node (productList s2) = 0%nat :: 1%nat :: nil
    /\ UI.remove_click q 1 s2 = (Returned tt, s3)
    /\ created s3 = q :: nil
    /\ map li_node (productList s3) = 0%nat :: nil.
Proof.
  cbv zeta. eexists _, _, _, _, _.
  split; [vm_compute; reflexivity|].
  split; [vm_compute; reflexivity|].
  split; [vm_compute; reflexivity|].
  repeat split; vm_compute; reflexivity.
Qed.

(** * Further properties *)

(** ** Books *)

(** X1.  The book built from a raw record has the author of the record when
    that is a string other than the empty one, and ["Unknown"] when the
    record has none or an empty one; its pages are the value of the
    record whenever that is truthy, and the number 0 when the record has
    none or has 0, NaN, [null], [false] or the empty string. *)
Theorem book_fields (d : gmap string value) (w : world) :
  exists b author pages w',
    new_BookProduct d w = (Returned (BookProduct b author pages), w')
    /\ (forall s, d !! "author" = Some (Str s) -> s <> "" -> author = Str s)
    /\ (truthy (get d "author") = false -> author = Str "Unknown")
    /\ (forall v, d !! "pages" = Some v -> truthy v = true -> pages = v)
    /\ (truthy (get d "pages") = false -> pages = Number Num.zero)
    /\ truthy author = true
    /\ (truthy pages = true \/ pages = Number Num.zero).
Proof.
  destruct (Product_constructor_returns d w) as (i & w' & E).
  unfold new_BookProduct, bind, ret. rewrite E.
  eexists _, _, _, _. split; [reflexivity|]. repeat split.
  - intros s H Hs. rewrite (get_present _ _ _ H). unfold or. cbn.
    apply String.eqb_neq in Hs. now rewrite Hs.
  - intros H. unfold or. now rewrite H.
  - intros v H Hv. rewrite (get_present _ _ _ H). unfold or. now rewrite Hv.
  - intros H. unfold or. now rewrite H.
  - unfold or. now destruct (truthy (get d "author")) eqn:T.
  - unfold or. destruct (truthy (get d "pages")) eqn:T; auto.
Qed.

(** A record without author and with 0 pages. *)
Lemma book_fields_witness :
  exists b author pages w',
    new_BookProduct {[ "pages" := Number Num.zero ]} Sample.still
    = (Returned (BookProduct b author pages), w')
    /\ author = Str "Unknown" /\ pages = Number Num.zero.
Proof.
  destruct (book_fields {[ "pages" := Number Num.zero ]} Sample.still)
    as (b & author & pages & w' & E & _ & Ha & _ & Hp & _).
  exists b, author, pages, w'. split; [exact E|]. split.
  - apply Ha. reflexivity.
  - apply Hp. reflexivity.
Defined.

(** ** A price given as a number *)

(** X2.  A price given as a number of the format other than 0 and NaN is the
    price of the product: [parseFloat] reads it back from its decimal
    string. *)
Theorem numeric_price_kept (d : gmap string value) (x : Num.number)
    (w : world) :
  d !! "price" = Some (Number x) ->
  valid x = true -> Num.is_nan x = false -> Num.is_zero x = false ->
  exists b w', Product_constructor d w = (Returned b, w') /\ price b = x.
Proof.
  intros H V N Z. destruct (Product_constructor_returns d w) as (i & w' & E).
  rewrite E. eexists _, _. split; [reflexivity|]. cbn [price].
  rewrite (get_present _ _ _ H). unfold parseFloat. cbn [to_string].
  rewrite parse_float_to_string; [|assumption|].
  - now apply or_number_kept.
  - intros ->. discriminate.
Qed.

(** The price 0.1, as a number. *)
Lemma numeric_price_kept_witness :
  exists b w',
    Product_constructor {[ "price" := Number (Num.of_decimal 1 (-1)) ]}
      Sample.still = (Returned b, w')
    /\ price b = Num.of_decimal 1 (-1).
Proof.
  apply (numeric_price_kept {[ "price" := Number (Num.of_decimal 1 (-1)) ]}
           (Num.of_decimal 1 (-1)) Sample.still); reflexivity.
Defined.

(** ** The registered tags *)

Section JsMapKeys.
Context {V : Type}.
Implicit Types (m : JsMap.t V) (k : string) (v : V).

Lemma has_get k m : JsMap.has k m = false <-> JsMap.get k m = None.
Proof. unfold JsMap.has. destruct (JsMap.get k m); split; congruence. Qed.

Lemma keys_set_present k v m :
  In k (JsMap.keys m) -> JsMap.keys (JsMap.set k v m) = JsMap.keys m.
Proof.
  intros H. unfold JsMap.set. destruct (JsMap.has k m) eqn:E.
  - apply keys_replace.
  - apply has_get, get_None_keys in E. tauto.
Qed.

Lemma keys_set_absent k v m :
  ~ In k (JsMap.keys m) ->
  JsMap.keys (JsMap.set k v m) = (JsMap.keys m ++ k :: nil)%list.
Proof.
  intros H. unfold JsMap.set. apply get_None_keys, has_get in H. rewrite H.
  unfold JsMap.keys. now rewrite map_app.
Qed.

Lemma keys_delete k m :
  JsMap.keys (JsMap.delete k m)
  = List.filter (fun k' => negb (String.eqb k k')) (JsMap.keys m).
Proof.
  unfold JsMap.keys, JsMap.delete. induction m as [|[k0 v0] m IH]; cbn;
    [reflexivity|].
  destruct (String.eqb k k0); cbn; congruence.
Qed.

Lemma NoDup_keys_delete k m :
  NoDup (JsMap.keys m) -> NoDup (JsMap.keys (JsMap.delete k m)).
Proof.
  rewrite keys_delete. generalize (JsMap.keys m). intros l H.
  induction H as [|x l Hx H IH]; cbn; [constructor|].
  destruct (String.eqb k x); cbn; [assumption|].
  constructor; [|assumption]. intros G. apply Hx.
  apply list_elem_of_In. apply list_elem_of_In in G.
  apply filter_In in G. tauto.
Qed.

Lemma delete_app k m m' :
  JsMap.delete k (m ++ m')%list
  = (JsMap.delete k m ++ JsMap.delete k m')%list.
Proof. unfold JsMap.delete. apply List.filter_app. Qed.

Lemma delete_set_absent k v m :
  JsMap.get k m = None -> JsMap.delete k (JsMap.set k v m) = m.
Proof.
  intros H. unfold JsMap.set. rewrite (proj2 (has_get k m) H), delete_app.
  rewrite (delete_absent _ _ H). cbn. rewrite String.eqb_refl. cbn.
  apply app_nil_r.
Qed.

Lemma delete_twice k m :
  JsMap.delete k (JsMap.delete k m) = JsMap.delete k m.
Proof. apply delete_absent, get_delete_eq. Qed.

Lemma replace_twice k v v' m :
  JsMap.replace k v' (JsMap.replace k v m) = JsMap.replace k v' m.
Proof.
  induction m as [|[k0 v0] m IH]; cbn; [reflexivity|].
  destruct (String.eqb k k0) eqn:E; cbn; rewrite E; congruence.
Qed.

Lemma replace_last k v v' m :
  JsMap.get k m = None ->
  JsMap.replace k v' (m ++ (k, v) :: nil)%list = (m ++ (k, v') :: nil)%list.
Proof.
  induction m as [|[k0 v0] m IH]; cbn.
  - now rewrite String.eqb_refl.
  - destruct (String.eqb k k0); [discriminate|]. intros H. now rewrite IH.
Qed.

Lemma set_twice k v v' m :
  JsMap.set k v' (JsMap.set k v m) = JsMap.set k v' m.
Proof.
  unfold JsMap.set at 1.
  assert (H : JsMap.has k (JsMap.set k v m) = true).
  { unfold JsMap.has. now rewrite get_set_eq. }
  rewrite H. unfold JsMap.set. destruct (JsMap.has k m) eqn:E.
  - apply replace_twice.
  - apply replace_last. now apply has_get.
Qed.

End JsMapKeys.

(** X3.  What [availableTypes()] returns after [register(t, c)] and after
    [unregister(t)]: a tag that was registered keeps its place, a new one
    goes last; [unregister] takes the tag out and keeps the others in
    their order; and the tags stay distinct. *)
Theorem available_types_follow (t : string) (c : creator) (s : page) :
  let types := JsMap.keys (registry s) in
  let s1 := snd (ProductFactory.register t c s) in
  let s2 := snd (ProductFactory.unregister t s) in
  (In t types -> ProductFactory.availableTypes s1 = (Returned types, s1))
  /\ (~ In t types ->
      ProductFactory.availableTypes s1
      = (Returned (types ++ t :: nil)%list, s1))
  /\ ProductFactory.availableTypes s2
     = (Returned (List.filter (fun k => negb (String.eqb t k)) types), s2)
  /\ (NoDup types ->
      NoDup (JsMap.keys (registry s1)) /\ NoDup (JsMap.keys (registry s2))).
Proof.
  cbv zeta. unfold ProductFactory.availableTypes, ProductFactory.register,
    ProductFactory.unregister, update, read. cbn [snd registry with_registry].
  repeat split.
  - intros H. now rewrite keys_set_present.
  - intros H. now rewrite keys_set_absent.
  - now rewrite keys_delete.
  - now apply NoDup_keys_set.
  - now apply NoDup_keys_delete.
Qed.

(** The tag ["widget"] registered on the page as it starts, then
    ["book"] registered again. *)
Lemma available_types_follow_witness :
  ProductFactory.availableTypes
    (snd (ProductFactory.register "widget" BookCreator Sample.page0))
  = (Returned ("electronics" :: "clothing" :: "book" :: "widget" :: nil),
     snd (ProductFactory.register "widget" BookCreator Sample.page0))
  /\ ProductFactory.availableTypes
       (snd (ProductFactory.register "book" ProductCreator Sample.page0))
     = (Returned ("electronics" :: "clothing" :: "book" :: nil),
        snd (ProductFactory.register "book" ProductCreator Sample.page0)).
Proof.
  split.
  - apply (proj1 (proj2 (available_types_follow "widget" BookCreator
                           Sample.page0))).
    cbn. intros [H|[H|[H|[]]]]; discriminate.
  - apply (proj1 (available_types_follow "book" ProductCreator Sample.page0)).
    cbn. tauto.
Defined.

(** X4.  How [register] and [unregister] compose: registering a tag twice is
    registering it with the second creator; unregistering twice is
    unregistering once; and registering a tag that was not mapped and
    unregistering it gives the page back. *)
Theorem register_unregister_compose (t : string) (c c' : creator) (s : page) :
  snd (ProductFactory.register t c' (snd (ProductFactory.register t c s)))
  = snd (ProductFactory.register t c' s)
  /\ snd (ProductFactory.unregister t (snd (ProductFactory.unregister t s)))
     = snd (ProductFactory.unregister t s)
  /\ (JsMap.get t (registry s) = None ->
      snd (ProductFactory.unregister t (snd (ProductFactory.register t c s)))
      = s).
Proof.
  unfold ProductFactory.register, ProductFactory.unregister, update.
  cbn [snd]. destruct s as [r cr pl n f a w]. unfold with_registry.
  cbn [registry created productList nodes inputs alerts env].
  repeat split.
  - now rewrite set_twice.
  - now rewrite delete_twice.
  - intros H. now rewrite delete_set_absent.
Qed.

(** ["widget"] registered and unregistered on the page as it starts. *)
Lemma register_unregister_compose_witness :
  snd (ProductFactory.unregister "widget"
         (snd (ProductFactory.register "widget" BookCreator Sample.page0)))
  = Sample.page0.
Proof.
  apply (proj2 (proj2 (register_unregister_compose "widget" BookCreator
                         BookCreator Sample.page0))).
  reflexivity.
Defined.

(** ** What [create] touches *)

Lemma create_effect (type : string) (d : gmap string value) (s : page) :
  (exists w', snd (ProductFactory.create type d s) = with_env w' s)
  /\ (forall c, JsMap.get type (registry s) = Some c -> built_in c ->
        exists p,
          ProductFactory.create type d s
          = (Returned p, with_env (read_once (env s)) s)).
Proof.
  split.
  - destruct (JsMap.get type (registry s)) as [c|] eqn:G.
    + rewrite (create_mapped _ _ _ _ G). unfold lift.
      destruct (creator_create c d (env s)) as [o w']. now exists w'.
    + rewrite (create_unmapped _ _ _ G). exists (env s).
      now rewrite with_env_same.
  - intros c G B. rewrite (create_mapped _ _ _ _ G). unfold lift.
    destruct (built_in_create_world c d (env s) B) as (p & ->). now exists p.
Qed.

(** [create] for a tag that is not mapped or is mapped to a creator of
    the script. *)
Lemma create_scripted (type : string) (d : gmap string value) (s : page) :
  (forall c, JsMap.get type (registry s) = Some c -> scripted c) ->
  (exists p,
      ProductFactory.create type d s
      = (Returned p, with_env (read_once (env s)) s))
  \/ (exists e, ProductFactory.create type d s = (Thrown e, s)).
Proof.
  intros H. destruct (JsMap.get type (registry s)) as [c|] eqn:G.
  - destruct (H c eq_refl) as [-> | B].
    + right. exists must_override. rewrite (create_mapped _ _ _ _ G).
      unfold lift. cbn. now rewrite with_env_same.
    + left. exact (proj2 (create_effect type d s) c G B).
  - right. eexists. now apply create_unmapped.
Qed.

(** X5.  What [create] touches through the creators of the script.  For a
    tag mapped to a built-in creator it returns a product and changes
    nothing of the page but the environment, in which the clock and the
    random source have been read once each; for a tag that is not
    mapped, or is mapped to the base creator, it throws and leaves the
    page as it was.  It never adds to [created] itself. *)
Theorem create_frame (type : string) (d : gmap string value) (s : page) :
  (forall c, JsMap.get type (registry s) = Some c -> built_in c ->
     exists p,
       ProductFactory.create type d s
       = (Returned p, with_env (read_once (env s)) s))
  /\ (JsMap.get type (registry s) = None
      \/ JsMap.get type (registry s) = Some ProductCreator ->
      exists e, ProductFactory.create type d s = (Thrown e, s)).
Proof.
  split.
  - intros c G B. rewrite (create_mapped _ _ _ _ G). unfold lift.
    destruct B as [-> | [-> | ->]]; cbn; eexists; reflexivity.
  - intros [G | G].
    + exists (ProductFactory.unregistered type). now apply create_unmapped.
    + exists must_override. rewrite (create_mapped _ _ _ _ G). unfold lift.
      cbn. now rewrite with_env_same.
Qed.

(** ["book"] on the page as it starts: the two counters go from 0 to 1. *)
Lemma create_frame_witness :
  exists p,
    ProductFactory.create "book" Sample.dune Sample.page0
    = (Returned p, with_env (read_once Sample.still) Sample.page0).
Proof.
  apply (proj1 (create_frame "book" Sample.dune Sample.page0) BookCreator).
  - reflexivity.
  - right. right. reflexivity.
Defined.

(** ** The create button *)

(** The record the listener passes to [create] is [form_data]. *)
Lemma create_click_run (s : page) :
  UI.create_click s
  = UI.try_alert
      (product <- ProductFactory.create (productType (inputs s))
                    (form_data s) ;;
       _ <- update (fun s =>
              with_created (created s ++ product :: nil)%list s) ;;
       _ <- UI.addProductToUI product ;;
       update (fun s =>
         let f := inputs s in
         with_inputs (Form (productType f) "" "" (typeFields f)) s)) s.
Proof. reflexivity. Qed.

Lemma create_click_returned (s s1 : page) (p : product) :
  ProductFactory.create (productType (inputs s)) (form_data s) s
  = (Returned p, s1) ->
  UI.create_click s = (Returned tt, listed p (env s1) s1).
Proof.
  intros E. rewrite create_click_run. unfold UI.try_alert.
  unfold bind at 1. rewrite E. unfold bind at 1. unfold update at 1.
  unfold bind. rewrite addProductToUI_run. unfold listed.
  cbn [env with_created].
  now destruct (buttons_found (env s1) p).
Qed.

Lemma create_click_thrown (s s1 : page) (e : error) :
  ProductFactory.create (productType (inputs s)) (form_data s) s
  = (Thrown e, s1) ->
  UI.create_click s
  = (Returned tt, with_alerts (alerts s1 ++ message e :: nil)%list s1).
Proof.
  intros E. rewrite create_click_run. unfold UI.try_alert.
  unfold bind at 1. now rewrite E.
Qed.


(** X6.  With the chosen tag not mapped or mapped to a creator of the
    script, the create listener never throws, and what it leaves
    follows what [create] did with the record of the form.  When
    [create] throws, the message is shown in an alert and nothing else
    is touched.  When [create] returns a product, the product and its
    item are appended; then, when the browser finds the two buttons of
    the item, the name and price inputs are emptied and no alert is
    shown, and when it does not, the message of the [TypeError] is shown
    in an alert and the inputs keep their text. *)
Theorem create_click_outcome (s : page) (o : outcome product) (s1 : page) :
  (forall c, JsMap.get (productType (inputs s)) (registry s) = Some c ->
             scripted c) ->
  ProductFactory.create (productType (inputs s)) (form_data s) s = (o, s1) ->
  match o with
  | Thrown e =>
      UI.create_click s
      = (Returned tt, with_alerts (alerts s1 ++ message e :: nil)%list s1)
  | Returned p =>
      (buttons_found (env s1) p = true ->
       UI.create_click s
       = (Returned tt, after_create p (UI.item_markup p) (env s1) s1))
      /\ (buttons_found (env s1) p = false ->
          UI.create_click s
          = (Returned tt,
             with_alerts
               (alerts s1 ++ message (null_button (env s1) p) :: nil)%list
               (after_clone p (UI.item_markup p) (env s1) s1)))
  end.
Proof.
  intros _ E. destruct o as [p|e].
  - rewrite (create_click_returned s s1 p E). unfold listed.
    split; intros ->; reflexivity.
  - rewrite create_click_run. unfold UI.try_alert, bind. now rewrite E.
Qed.

(** An electronics product named [<!--], which opens a comment in its
    item: the product is appended, the alert shows, the form keeps its
    text. *)
Lemma create_click_outcome_witness :
  let s := with_inputs (Form "electronics" "<!--" "5" ∅) Sample.page0 in
  exists p s1,
    ProductFactory.create "electronics" (form_data s) s = (Returned p, s1)
    /\ name (base_of p) = Str "<!--"
    /\ buttons_found (env s1) p = false
    /\ UI.create_click s
       = (Returned tt,
          with_alerts
            ("Cannot read properties of null (reading 'addEventListener')"
             :: nil)
            (after_clone p (UI.item_markup p) (env s1) s1))
    /\ nameInput (inputs (snd (UI.create_click s))) = "<!--".
Proof.
  cbv zeta.
  set (s := with_inputs (Form "electronics" "<!--" "5" ∅) Sample.page0).
  destruct (ProductFactory.create "electronics" (form_data s) s)
    as [o s1] eqn:E.
  assert (S : forall c,
             JsMap.get (productType (inputs s)) (registry s) = Some c ->
             scripted c).
  { intros c [= <-]. right. left. reflexivity. }
  pose proof (create_click_outcome s o s1 S E) as H.
  vm_compute in E. injection E as <- <-.
  destruct H as [_ H]. specialize (H eq_refl).
  eexists _, _. split; [reflexivity|]. split; [reflexivity|].
  split; [reflexivity|]. split; [exact H|]. rewrite H. reflexivity.
Defined.

Lemma get_insert_ne (d : gmap string value) (k k' : string) (v : value) :
  k <> k' -> get (<[ k := v ]> d) k' = get d k'.
Proof. intros H. unfold get. now rewrite lookup_insert_ne. Qed.

Lemma get_insert_eq (d : gmap string value) (k : string) (v : value) :
  get (<[ k := v ]> d) k = v.
Proof. unfold get. now rewrite lookup_insert_eq. Qed.

Lemma form_data_name (s : page) :
  get (form_data s) "name" = form_name (inputs s).
Proof.
  unfold form_data.
  repeat (destruct (String.eqb _ _));
    rewrite ?get_insert_ne by discriminate; apply get_pair_first.
Qed.

Lemma form_data_price (s : page) :
  get (form_data s) "price" = Number (form_price (inputs s)).
Proof.
  unfold form_data.
  repeat (destruct (String.eqb _ _));
    rewrite ?get_insert_ne by discriminate;
    unfold get; now rewrite lookup_singleton_eq.
Qed.

Lemma form_name_nonempty (f : form) :
  exists n, form_name f = Str n /\ n <> ""
            /\ (Str.trim (nameInput f) <> "" -> n = Str.trim (nameInput f))
            /\ (Str.trim (nameInput f) = "" -> n = "Untitled").
Proof.
  unfold form_name, or. cbn [truthy].
  destruct (String.eqb_spec (Str.trim (nameInput f)) "") as [E|N]; cbn.
  - exists "Untitled". rewrite E. repeat split; congruence.
  - exists (Str.trim (nameInput f)). repeat split; congruence.
Qed.

Lemma form_price_read_back (f : form) :
  or_number (parseFloat (Number (form_price f))) Num.zero = form_price f.
Proof. apply (price_read_back (Str (priceInput f))). Qed.

(** X7.  With the registry of the script and one of its three tags chosen,
    the create listener appends a product of the class of the tag and
    its item, and reads the clock and the random source once.  When the
    browser finds the two buttons of the item it empties the name and
    price inputs; when it does not, it shows the message of the
    [TypeError] in an alert and the inputs keep their text.  The name of
    the product is the trimmed name input, or ["Untitled"] when that is
    empty, so never the empty string; its price is [parseFloat] of the
    price input, or 0 when that is NaN or zero. *)
Theorem create_click_built_in (s : page) :
  registry s = ProductFactory.initial ->
  In (productType (inputs s)) ("electronics" :: "clothing" :: "book" :: nil) ->
  exists p n,
    UI.create_click s = (Returned tt, listed p (read_once (env s)) s)
    /\ UI.type_of p = Some (productType (inputs s))
    /\ name (base_of p) = Str n /\ n <> ""
    /\ (Str.trim (nameInput (inputs s)) <> "" ->
        n = Str.trim (nameInput (inputs s)))
    /\ (Str.trim (nameInput (inputs s)) = "" -> n = "Untitled")
    /\ price (base_of p)
       = or_number (Str.parse_float (priceInput (inputs s))) Num.zero.
Proof.
  intros R T.
  destruct (form_name_nonempty (inputs s)) as (n & Hn & Hne & H1 & H2).
  assert (C : exists p,
             ProductFactory.create (productType (inputs s)) (form_data s) s
             = (Returned p, with_env (read_once (env s)) s)
             /\ UI.type_of p = Some (productType (inputs s))
             /\ name (base_of p) = get (form_data s) "name"
             /\ price (base_of p)
                = or_number (parseFloat (get (form_data s) "price")) Num.zero).
  { destruct T as [E | [E | [E | []]]]; rewrite <- E;
      (erewrite create_mapped by (rewrite R; reflexivity));
      unfold lift, creator_create, factoryMethod, new_ElectronicsProduct,
        new_ClothingProduct, new_BookProduct, bind, ret;
      destruct (Product_constructor_returns (form_data s) (env s))
        as (i & w' & P);
      pose proof (Product_constructor_world (form_data s) (env s)) as W;
      rewrite P in W |- *; cbn in W; subst w';
      eexists; (split; [reflexivity|]); repeat split. }
  destruct C as (p & E & Ty & Na & Pr).
  exists p, n. split; [exact (create_click_returned s _ p E)|].
  split; [exact Ty|].
  rewrite Na, form_data_name, Pr, form_data_price, form_price_read_back.
  repeat split; assumption.
Qed.

(** The book of the filled form, on the page as it starts. *)
Lemma create_click_built_in_witness :
  let s := with_inputs Sample.dune_form Sample.page0 in
  exists p,
    UI.create_click s = (Returned tt, listed p (read_once (env s)) s)
    /\ UI.type_of p = Some "book"
    /\ name (base_of p) = Str "Dune"
    /\ price (base_of p)
       = or_number (Str.parse_float "12.5") Num.zero.
Proof.
  cbv zeta.
  destruct (create_click_built_in (with_inputs Sample.dune_form Sample.page0))
    as (p & n & H & Ty & Hn & _ & Ht & _ & Pr).
  - reflexivity.
  - cbn. tauto.
  - exists p. split; [exact H|]. split; [exact Ty|]. split; [|exact Pr].
    rewrite Hn. f_equal. apply Ht. vm_compute. discriminate.
Defined.

(** ** The fields of the form *)

Lemma form_data_electronics (s : page) :
  productType (inputs s) = "electronics" ->
  get (form_data s) "brand" = or (UI.field_value s "brand") (Str "Generic")
  /\ get (form_data s) "warrantyYears"
     = Number (parseInt10 (or (UI.field_value s "warranty")
                              (Number (Num.of_Z 1)))).
Proof.
  intros E. unfold form_data. rewrite E. cbn [String.eqb Ascii.eqb Bool.eqb].
  split; [apply get_insert_eq|].
  rewrite get_insert_ne by discriminate. apply get_insert_eq.
Qed.

Lemma form_data_clothing (s : page) :
  productType (inputs s) = "clothing" ->
  get (form_data s) "size" = or (UI.field_value s "size") (Str "M")
  /\ get (form_data s) "material"
     = or (UI.field_value s "material") (Str "Unknown").
Proof.
  intros E. unfold form_data. rewrite E. cbn [String.eqb Ascii.eqb Bool.eqb].
  split; [apply get_insert_eq|].
  rewrite get_insert_ne by discriminate. apply get_insert_eq.
Qed.

Lemma form_data_book (s : page) :
  productType (inputs s) = "book" ->
  get (form_data s) "author" = or (UI.field_value s "author") (Str "Unknown")
  /\ get (form_data s) "pages"
     = Number (parseInt10 (or (UI.field_value s "pages")
                              (Number (Num.of_Z 0)))).
Proof.
  intros E. unfold form_data. rewrite E. cbn [String.eqb Ascii.eqb Bool.eqb].
  split; [apply get_insert_eq|].
  rewrite get_insert_ne by discriminate. apply get_insert_eq.
Qed.

Lemma or_truthy (a b : value) : truthy b = true -> truthy (or a b) = true.
Proof. intros H. unfold or. now destruct (truthy a) eqn:A. Qed.

Lemma or_kept (a b : value) : truthy a = true -> or a b = a.
Proof. intros H. unfold or. now rewrite H. Qed.

Lemma or_numbers (x y : Num.number) :
  or (Number x) (Number y) = Number (or_number x y).
Proof. unfold or, or_number. now destruct (truthy (Number x)). Qed.

(** [parseInt] of the decimal digits of a number. *)
Lemma parse_int10_digits (n : N) :
  Str.parse_int10 (Num.digits n) = Num.of_decimal n 0.
Proof.
  unfold Str.parse_int10.
  pose proof (all_digits_digits n) as Hd.
  pose proof (digits_nonempty n) as Hne.
  pose proof (digits_value_digits n) as Hv.
  destruct (Num.digits n) as [|c r] eqn:E; [congruence|].
  assert (Hc : Str.is_digit c = true).
  { cbn in Hd. now apply andb_true_iff in Hd as [Hc _]. }
  rewrite trim_start_digit, split_sign_digit by assumption.
  rewrite span_digits_all by assumption. now rewrite Hv.
Qed.

Lemma of_decimal_integer (p : positive) :
  Num.of_decimal (N.pos p) 0 = Num.of_Z (Z.pos p).
Proof.
  unfold Num.of_decimal, Num.of_Z, binary_normalize.
  change (Z.to_pos (10 ^ 0)) with 1%positive. now rewrite Pos.mul_1_r.
Qed.

Lemma of_Z_safe_truthy (p : positive) :
  Z.pos p < 2 ^ 53 -> truthy (Number (Num.of_Z (Z.pos p))) = true.
Proof. intros H. now rewrite of_Z_safe. Qed.

(** What [create] returns for the three tags of the script. *)
Lemma create_initial (s : page) (d : gmap string value) :
  registry s = ProductFactory.initial ->
  exists i,
    let b := Base (get d "name")
               (or_number (parseFloat (get d "price")) Num.zero) i in
    let s' := with_env (read_once (env s)) s in
    ProductFactory.create "electronics" d s
    = (Returned (ElectronicsProduct b
                   (or (get d "brand") (Str "Unknown"))
                   (or (get d "warrantyYears") (Number (Num.of_Z 1)))), s')
    /\ ProductFactory.create "clothing" d s
       = (Returned (ClothingProduct b
                      (or (get d "size") (Str "M"))
                      (or (get d "material") (Str "Unknown"))), s')
    /\ ProductFactory.create "book" d s
       = (Returned (BookProduct b
                      (or (get d "author") (Str "Unknown"))
                      (or (get d "pages") (Number (Num.of_Z 0)))), s').
Proof.
  intros R. destruct (Product_constructor_returns d (env s)) as (i & w' & P).
  pose proof (Product_constructor_world d (env s)) as W.
  rewrite P in W. cbn in W. subst w'. exists i. cbv zeta.
  repeat split;
    (erewrite create_mapped by (rewrite R; reflexivity));
    unfold lift, creator_create, factoryMethod, new_ElectronicsProduct,
      new_ClothingProduct, new_BookProduct, bind, ret; now rewrite P.
Qed.

(** X8.  An electronics product made through the form; the create listener
    appends it with its item, and empties the inputs or shows the alert
    of the [TypeError] as the browser finds the buttons of the item or
    not.  Its brand is the brand typed, or ["Generic"] when the brand
    input is empty or not there: the ["Unknown"] of the constructor
    never shows.  Its warranty is a number other than 0 and NaN: the
    safe integer typed in decimal digits when that is not 0, and 1 when
    the warranty input is empty, not there, or holds 0. *)
Theorem electronics_from_form (s : page) :
  registry s = ProductFactory.initial ->
  productType (inputs s) = "electronics" ->
  exists b brand n,
    UI.create_click s
    = (Returned tt,
       listed (ElectronicsProduct b (Str brand) (Number n))
         (read_once (env s)) s)
    /\ brand <> ""
    /\ (forall v, typeFields (inputs s) !! "brand" = Some v -> v <> "" ->
                  brand = v)
    /\ (typeFields (inputs s) !! "brand" = None
        \/ typeFields (inputs s) !! "brand" = Some "" -> brand = "Generic")
    /\ Num.is_zero n = false /\ Num.is_nan n = false
    /\ (forall p, Z.pos p < 2 ^ 53 ->
                  typeFields (inputs s) !! "warranty"
                  = Some (Num.digits (N.pos p)) ->
                  n = Num.of_Z (Z.pos p))
    /\ (typeFields (inputs s) !! "warranty" = None
        \/ typeFields (inputs s) !! "warranty" = Some ""
        \/ typeFields (inputs s) !! "warranty" = Some "0" ->
        n = Num.of_Z 1).
Proof.
  intros R T. destruct (create_initial s (form_data s) R) as (i & C & _ & _).
  rewrite <- T in C. destruct (form_data_electronics s T) as [Hb Hw].
  rewrite Hb, Hw in C.
  set (k := parseInt10 (or (UI.field_value s "warranty")
                           (Number (Num.of_Z 1)))) in *.
  rewrite or_numbers in C.
  assert (B : exists brand,
             or (UI.field_value s "brand") (Str "Generic") = Str brand
             /\ brand <> ""
             /\ (forall v, typeFields (inputs s) !! "brand" = Some v ->
                           v <> "" -> brand = v)
             /\ (typeFields (inputs s) !! "brand" = None
                 \/ typeFields (inputs s) !! "brand" = Some "" ->
                 brand = "Generic")).
  { unfold UI.field_value.
    destruct (typeFields (inputs s) !! "brand") as [v|] eqn:F.
    - destruct (String.eqb_spec v "") as [->|N].
      + exists "Generic". repeat split; try discriminate; congruence.
      + exists v. unfold or. cbn. apply String.eqb_neq in N as N'. rewrite N'.
        repeat split; try congruence. intros [H|H]; congruence.
    - exists "Generic". repeat split; try discriminate; congruence. }
  destruct B as (brand & Eb & Bne & B1 & B2). rewrite Eb in C.
  rewrite (or_kept (Str brand)) in C
    by (cbn; now apply negb_true_iff, String.eqb_neq).
  pose proof (create_click_returned s _ _ C) as H.
  eexists _, brand, (or_number k (Num.of_Z 1)).
  split; [exact H|]. repeat split; try assumption.
  - now destruct k as [[]|[]| |[] m e].
  - now destruct k as [[]|[]| |[] m e].
  - intros p Hp F. subst k. unfold UI.field_value. rewrite F.
    rewrite or_kept
      by (cbn; apply negb_true_iff, String.eqb_neq, digits_nonempty).
    unfold parseInt10. cbn [to_string].
    rewrite parse_int10_digits, of_decimal_integer.
    pose proof (of_Z_safe_truthy p Hp) as Tr. unfold or_number. now rewrite Tr.
  - intros F. subst k. unfold UI.field_value.
    destruct F as [F | [F | F]]; rewrite F; vm_compute; reflexivity.
Qed.

(** The brand ["Acme"] and 3 years typed into the form. *)
Lemma electronics_from_form_witness :
  let s :=
    with_inputs (Form "electronics" "Fan" "499"
                   {[ "brand" := "Acme"; "warranty" := "3" ]}) Sample.page0 in
  exists b,
    UI.create_click s
    = (Returned tt,
       listed (ElectronicsProduct b (Str "Acme") (Number (Num.of_Z 3)))
         (read_once (env s)) s).
Proof.
  cbv zeta.
  destruct (electronics_from_form
              (with_inputs (Form "electronics" "Fan" "499"
                              {[ "brand" := "Acme"; "warranty" := "3" ]})
                 Sample.page0) eq_refl eq_refl)
    as (b & brand & n & H & _ & Hb & _ & _ & _ & Hn & _).
  exists b. rewrite H. repeat f_equal.
  - apply Hb; [reflexivity|discriminate].
  - apply (Hn 3%positive); [reflexivity|reflexivity].
Defined.

(** ** A form just rendered *)

(** X9.  Choosing a type renders its inputs anew; creating right away, with
    nothing typed into them, makes an electronics product of brand
    ["Generic"] with 1 year of warranty, a clothing product of size
    ["S"] (the first option of the select, not the ["M"] of the
    constructor) and material ["Unknown"], and a book by ["Unknown"] of
    0 pages.  The listener appends the product with its item, and
    empties the name and price inputs or shows the alert of the
    [TypeError] as the browser finds the buttons of the item or not. *)
Theorem fresh_form_defaults (s : page) :
  registry s = ProductFactory.initial ->
  let after type := snd (UI.productType_change type s) in
  (exists b,
      UI.create_click (after "electronics")
      = (Returned tt,
         listed (ElectronicsProduct b (Str "Generic") (Number (Num.of_Z 1)))
           (read_once (env s)) (after "electronics")))
  /\ (exists b,
         UI.create_click (after "clothing")
         = (Returned tt,
            listed (ClothingProduct b (Str "S") (Str "Unknown"))
              (read_once (env s)) (after "clothing")))
  /\ (exists b,
         UI.create_click (after "book")
         = (Returned tt,
            listed (BookProduct b (Str "Unknown") (Number Num.zero))
              (read_once (env s)) (after "book"))).
Proof.
  intros R. cbv zeta. repeat split.
  - set (s1 := snd (UI.productType_change "electronics" s)).
    destruct (create_initial s1 (form_data s1) R) as (i & C & _ & _).
    destruct (form_data_electronics s1 eq_refl) as [Hb Hw].
    rewrite Hb, Hw in C.
    change (UI.field_value s1 "brand") with (Str "") in C.
    change (UI.field_value s1 "warranty") with (Str "") in C.
    change (or (Str "") (Str "Generic")) with (Str "Generic") in C.
    change (or (Str "") (Number (Num.of_Z 1))) with (Number (Num.of_Z 1)) in C.
    replace (parseInt10 (Number (Num.of_Z 1))) with (Num.of_Z 1) in C
      by (vm_compute; reflexivity).
    change (or (Str "Generic") (Str "Unknown")) with (Str "Generic") in C.
    replace (or (Number (Num.of_Z 1)) (Number (Num.of_Z 1)))
      with (Number (Num.of_Z 1)) in C by (vm_compute; reflexivity).
    eexists. exact (create_click_returned s1 _ _ C).
  - set (s1 := snd (UI.productType_change "clothing" s)).
    destruct (create_initial s1 (form_data s1) R) as (i & _ & C & _).
    destruct (form_data_clothing s1 eq_refl) as [Hb Hw].
    rewrite Hb, Hw in C.
    change (UI.field_value s1 "size") with (Str "S") in C.
    change (UI.field_value s1 "material") with (Str "") in C.
    change (or (Str "S") (Str "M")) with (Str "S") in C.
    change (or (Str "") (Str "Unknown")) with (Str "Unknown") in C.
    change (or (Str "S") (Str "M")) with (Str "S") in C.
    change (or (Str "Unknown") (Str "Unknown")) with (Str "Unknown") in C.
    eexists. exact (create_click_returned s1 _ _ C).
  - set (s1 := snd (UI.productType_change "book" s)).
    destruct (create_initial s1 (form_data s1) R) as (i & _ & _ & C).
    destruct (form_data_book s1 eq_refl) as [Hb Hw].
    rewrite Hb, Hw in C.
    change (UI.field_value s1 "author") with (Str "") in C.
    change (UI.field_value s1 "pages") with (Str "") in C.
    change (or (Str "") (Str "Unknown")) with (Str "Unknown") in C.
    change (or (Str "") (Number (Num.of_Z 0))) with (Number (Num.of_Z 0)) in C.
    replace (parseInt10 (Number (Num.of_Z 0))) with Num.zero in C
      by (vm_compute; reflexivity).
    change (or (Str "Unknown") (Str "Unknown")) with (Str "Unknown") in C.
    change (or (Number Num.zero) (Number (Num.of_Z 0)))
      with (Number Num.zero) in C.
    eexists. exact (create_click_returned s1 _ _ C).
Qed.

(** On the page as it starts. *)
Lemma fresh_form_defaults_witness :
  exists b,
    UI.create_click (snd (UI.productType_change "clothing" Sample.page0))
    = (Returned tt,
       listed (ClothingProduct b (Str "S") (Str "Unknown"))
         (read_once Sample.still)
         (snd (UI.productType_change "clothing" Sample.page0))).
Proof.
  exact (proj1 (proj2 (fresh_form_defaults Sample.page0 eq_refl))).
Defined.

(** ** The clone listener *)

(** X10.  On a page with the registry of the script, the clone listener of a
    product a built-in creator has built makes a product of the same
    class, with the same [meta()] fields and the same price and with
    the name followed by [ (clone)], and appends it and its item; it
    reads the clock and the random source once and leaves the form, the
    alerts and the registry as they were.  It returns when the browser
    finds the two buttons of the new item; when it does not, as when
    the new name opens a tag that the name of the original did not, it
    throws the [TypeError], which nothing catches, with the clone and
    its item appended. *)
Theorem clone_keeps_fields (p : product) (s : page) :
  constructed p ->
  registry s = ProductFactory.initial ->
  exists q,
    UI.clone_click p s = cloned q (read_once (env s)) s
    /\ UI.type_of q = UI.type_of p
    /\ meta q = meta p
    /\ price (base_of q) = price (base_of p)
    /\ name (base_of q) = Str (to_string (name (base_of p)) ++ " (clone)").
Proof.
  intros C R.
  destruct (create_clone_data p s C R)
    as (t & q & T & E & Ty & Me & Na & Pr & _).
  exists q. split; [|auto].
  unfold UI.clone_click. rewrite T. unfold bind at 1. rewrite E.
  unfold bind at 1. unfold update at 1. unfold bind.
  rewrite addProductToUI_run. unfold cloned, ret.
  cbn [env with_created with_env].
  now destruct (buttons_found (read_once (env s)) q).
Qed.

(** The book of the sample record, cloned on the page as it starts. *)
Lemma clone_keeps_fields_witness :
  exists p q,
    fst (creator_create BookCreator Sample.dune Sample.still) = Returned p
    /\ UI.clone_click p Sample.page0
       = cloned q (read_once Sample.still) Sample.page0
    /\ meta q = meta p
    /\ price (base_of q) = price (base_of p).
Proof.
  destruct (creator_create BookCreator Sample.dune Sample.still)
    as [[p|e] w'] eqn:E; [|discriminate E].
  destruct (clone_keeps_fields p Sample.page0) as (q & H & _ & M & P & _).
  - exists BookCreator, Sample.dune, Sample.still, w'. split; [|exact E].
    right. right. reflexivity.
  - reflexivity.
  - exists p, q. auto.
Defined.

(** X11.  The clone listener adds nothing for a bare [Product], for which it
    returns at once, and for a product whose tag the registry no longer
    maps, for which it throws the unregistered-type error of [create];
    the page stays as it was. *)
Theorem clone_adds_nothing (p : product) (s : page) :
  (UI.type_of p = None -> UI.clone_click p s = (Returned None, s))
  /\ (forall t, UI.type_of p = Some t ->
        JsMap.get t (registry s) = None ->
        UI.clone_click p s = (Thrown (ProductFactory.unregistered t), s)).
Proof.
  split.
  - intros T. unfold UI.clone_click. now rewrite T.
  - intros t T G. apply (clone_click_thrown p t); [assumption|].
    now apply create_unmapped.
Qed.

(** A book cloned after ["book"] has been unregistered. *)
Lemma clone_adds_nothing_witness :
  let s := snd (ProductFactory.unregister "book" Sample.page0) in
  let p := BookProduct (Base (Str "Dune") Num.zero "p_1_2") (Str "Herbert")
             (Number Num.zero) in
  UI.clone_click p s = (Thrown (ProductFactory.unregistered "book"), s).
Proof.
  cbv zeta.
  apply (proj2 (clone_adds_nothing
                  (BookProduct (Base (Str "Dune") Num.zero "p_1_2")
                     (Str "Herbert") (Number Num.zero))
                  (snd (ProductFactory.unregister "book" Sample.page0)))
           "book"); reflexivity.
Defined.

(** A book built at one reading of the ticking clock and cloned at the
    next. *)
Lemma clone_identifier_witness :
  exists p w' q,
    creator_create BookCreator Sample.dune ticking = (Returned p, w')
    /\ created (snd (UI.clone_click p (startup w' Sample.blank))) = q :: nil
    /\ id (base_of q) <> id (base_of p).
Proof.
  destruct (creator_create BookCreator Sample.dune ticking)
    as [[p|e] w'] eqn:E; [|discriminate E].
  assert (W : w' = read_once ticking).
  { destruct (built_in_create_world BookCreator Sample.dune ticking) as (p' & E').
    - right. right. reflexivity.
    - congruence. }
  destruct (clone_identifier BookCreator Sample.dune ticking w' p
              (startup w' Sample.blank))
    as (q & H & N).
  - right. right. reflexivity.
  - exact E.
  - reflexivity.
  - cbn. lia.
  - subst w'. cbn. lia.
  - subst w'. cbn. lia.
  - exists p, w', q. auto.
Defined.

(** ** The list and the created products *)

Lemma remove_first_absent (i : string) (l : list product) :
  ~ In i (map pid l) -> UI.remove_first i l = None.
Proof.
  induction l as [|p l IH]; cbn; [reflexivity|]. intros H.
  fold (pid p). destruct (String.eqb_spec (pid p) i) as [E|N]; [tauto|].
  rewrite IH by tauto. reflexivity.
Qed.

Lemma remove_first_last (i : string) (l : list product) (p : product) :
  ~ In i (map pid l) -> pid p = i ->
  UI.remove_first i (l ++ p :: nil)%list = Some l.
Proof.
  intros H E. induction l as [|x l IH]; cbn.
  - fold (pid p). rewrite E, String.eqb_refl. reflexivity.
  - cbn in H. fold (pid x).
    destruct (String.eqb_spec (pid x) i) as [E'|N]; [tauto|].
    rewrite IH by tauto. reflexivity.
Qed.

Lemma filter_node_absent (n : nat) (l : list li) :
  ~ In n (map li_node l) ->
  List.filter (fun x => negb (Nat.eqb (li_node x) n)) l = l.
Proof.
  induction l as [|x l IH]; cbn; [reflexivity|]. intros H.
  destruct (Nat.eqb_spec (li_node x) n) as [E|N]; [tauto|]. cbn.
  rewrite IH by tauto. reflexivity.
Qed.

Lemma fresh_node_absent (s : page) :
  nodes_fresh s -> ~ In (nodes s) (map li_node (productList s)).
Proof.
  intros [_ F] H. apply in_map_iff in H as (l & E & I).
  rewrite List.Forall_forall in F. specialize (F l I). lia.
Qed.

(** X13.  The remove listener of a product whose identifier no created
    product has changes nothing; and removing the product a listener
    has just appended, when its identifier is new, gives [created] and
    the list back. *)
Theorem remove_click_round_trip (s : page) (p : product) :
  ~ In (pid p) (map pid (created s)) ->
  (forall node, UI.remove_click p node s = (Returned tt, s))
  /\ (nodes_fresh s ->
      forall h w,
        let s' := snd (UI.remove_click p (nodes s) (after_clone p h w s)) in
        created s' = created s /\ productList s' = productList s
        /\ registry s' = registry s /\ inputs s' = inputs s).
Proof.
  intros A. split.
  - intros node. unfold UI.remove_click, update.
    fold (pid p). now rewrite remove_first_absent.
  - intros F h w. cbv zeta. unfold UI.remove_click, update, after_clone.
    cbn [snd created]. fold (pid p).
    rewrite remove_first_last by auto.
    cbn [created productList registry inputs with_created with_productList
         nodes alerts env].
    repeat split. rewrite List.filter_app. cbn. rewrite Nat.eqb_refl. cbn.
    rewrite filter_node_absent by now apply fresh_node_absent.
    apply app_nil_r.
Qed.

(** A book appended to the page as it starts, and removed. *)
Lemma remove_click_round_trip_witness :
  let p := BookProduct (Base (Str "Dune") Num.zero "p_1_2") (Str "Herbert")
             (Number Num.zero) in
  UI.remove_click p 0 Sample.page0 = (Returned tt, Sample.page0)
  /\ created (snd (UI.remove_click p 0
                     (after_clone p "" Sample.still Sample.page0))) = nil.
Proof.
  cbv zeta.
  destruct (remove_click_round_trip Sample.page0
              (BookProduct (Base (Str "Dune") Num.zero "p_1_2")
                 (Str "Herbert") (Number Num.zero))) as [H1 H2].
  - cbn. tauto.
  - assert (F : nodes_fresh Sample.page0) by (split; constructor).
    split; [apply H1|]. exact (proj1 (H2 F "" Sample.still)).
Defined.






(** ** What the listeners leave alone *)

(** X15.  With the creators of the script in the registry, no listener of
    the page changes the registry, and neither does [create]: only
    [register] and [unregister] do. *)
Theorem listeners_keep_registry (s : page) :
  (forall t c, JsMap.get t (registry s) = Some c -> scripted c) ->
  registry (snd (UI.create_click s)) = registry s
  /\ (forall p, registry (snd (UI.clone_click p s)) = registry s)
  /\ (forall p node, registry (snd (UI.remove_click p node s)) = registry s)
  /\ registry (snd (UI.clear_click s)) = registry s
  /\ (forall v, registry (snd (UI.productType_change v s)) = registry s)
  /\ (forall type d,
        registry (snd (ProductFactory.create type d s)) = registry s).
Proof.
  intros S.
  assert (C : forall type d,
             registry (snd (ProductFactory.create type d s)) = registry s).
  { intros type d.
    destruct (create_scripted type d s (S type)) as [(p & E)|(e & E)];
      now rewrite E. }
  split; [|split; [|split; [|split; [|split]]]].
  - specialize (C (productType (inputs s)) (form_data s)).
    destruct (ProductFactory.create (productType (inputs s)) (form_data s) s)
      as [[p|e] s1] eqn:E; cbn [snd] in C.
    + rewrite (create_click_returned s s1 p E). cbn [snd]. unfold listed.
      now destruct (buttons_found (env s1) p).
    + now rewrite (create_click_thrown s s1 e E).
  - intros p. destruct (UI.type_of p) as [t|] eqn:T.
    + specialize (C t (UI.cloneData p)).
      destruct (ProductFactory.create t (UI.cloneData p) s)
        as [[q|e] s1] eqn:E; cbn [snd] in C.
      * now rewrite (clone_click_returned p q t s s1 T E).
      * now rewrite (clone_click_thrown p t e s s1 T E).
    + unfold UI.clone_click. now rewrite T.
  - intros p node. unfold UI.remove_click, update. cbn [snd].
    now destruct (UI.remove_first _ _).
  - reflexivity.
  - reflexivity.
  - exact C.
Qed.

(** The page as it starts, with the book of the filled form. *)
Lemma listeners_keep_registry_witness :
  let s := with_inputs Sample.dune_form Sample.page0 in
  (forall t c, JsMap.get t (registry s) = Some c -> scripted c)
  /\ registry (snd (UI.create_click s)) = ProductFactory.initial
  /\ registry (snd (ProductFactory.create "book" Sample.dune s))
     = ProductFactory.initial.
Proof.
  cbv zeta.
  assert (S : forall t c,
             JsMap.get t (registry (with_inputs Sample.dune_form Sample.page0))
             = Some c -> scripted c).
  { intros t c.
    change (registry (with_inputs Sample.dune_form Sample.page0))
      with ProductFactory.initial.
    cbn. unfold scripted, built_in.
    repeat (destruct (String.eqb t _); [intros [= <-]; tauto|]).
    discriminate. }
  split; [exact S|].
  destruct (listeners_keep_registry _ S) as (H1 & _ & _ & _ & _ & H6).
  split; [exact H1|]. exact (H6 "book" Sample.dune).
Defined.

(** ** Prices with two decimals *)






(** ** A bare creator in the registry *)

(** X17.  When a tag maps to a bare [ProductCreator], [create] throws the
    must-override error for it and leaves the page as it was, and the
    create button shows that message in an alert and adds nothing. *)
Theorem base_creator_registered (type : string) (d : gmap string value)
    (s : page) :
  JsMap.get type (registry s) = Some ProductCreator ->
  ProductFactory.create type d s = (Thrown must_override, s)
  /\ (productType (inputs s) = type ->
      UI.create_click s
      = (Returned tt,
         with_alerts
           (alerts s
            ++ "factoryMethod() must be implemented by subclasses" :: nil)%list
           s)).
Proof.
  intros G.
  assert (C : forall d', ProductFactory.create type d' s
                         = (Thrown must_override, with_env (env s) s)).
  { intros d'. rewrite (create_mapped _ _ _ _ G). reflexivity. }
  split.
  - rewrite C. now rewrite with_env_same.
  - intros <-. rewrite (create_click_thrown s _ must_override (C _)).
    now rewrite with_env_same.
Qed.

(** ["book"] registered again with a bare creator, and chosen in the
    form. *)
Lemma base_creator_registered_witness :
  let s :=
    with_inputs (Form "book" "Dune" "12.5" ∅)
      (snd (ProductFactory.register "book" ProductCreator Sample.page0)) in
  ProductFactory.create "book" ∅ s = (Thrown must_override, s)
  /\ UI.create_click s
     = (Returned tt,
        with_alerts
          ("factoryMethod() must be implemented by subclasses" :: nil) s).
Proof.
  cbv zeta.
  destruct (base_creator_registered "book" ∅
              (with_inputs (Form "book" "Dune" "12.5" ∅)
                 (snd (ProductFactory.register "book" ProductCreator
                         Sample.page0))) eq_refl) as [H1 H2].
  split; [exact H1|]. apply H2. reflexivity.
Defined.
